(** * Parking-citation appeal engine: a shallow embedding and its properties

    The development follows the three Python modules of the engine:
    [regulations.py] (the jurisdiction catalog), [appeal_strategies.py]
    (the angle catalog, the situation classifier and the evidence
    evaluator) and [appeal_generator.py] (the request assembler and the
    calls to the external text generator), and then their callers in
    [workflow.py], [questionnaire.py] and [web/app.py].

    Python strings are modelled as Rocq strings of ASCII characters, so
    [str.lower], [str.upper] and [str.title] act on the letters a-z and
    A-Z only.  The float arithmetic of the evaluator is modelled with the
    kernel's binary64 numbers, which is the arithmetic CPython uses. *)

From Stdlib Require Import String Ascii List ZArith NArith QArith Bool Lia.
From Stdlib Require Import PrimFloat Uint63 DecimalString.
Import ListNotations.
Close Scope Q_scope.
Open Scope string_scope.

(** ** The fragment of Python the engine relies on *)

Module Py.

(** Values stored in the open fact and evidence dictionaries:
    [None], booleans, integers and strings. *)
Inductive value : Type :=
| VNone
| VBool (b : bool)
| VInt (z : Z)
| VStr (s : string).

(** [bool(v)]: the truth value used by [if v:] and by [or]. *)
Definition truthy (v : value) : bool :=
  match v with
  | VNone => false
  | VBool b => b
  | VInt z => negb (Z.eqb z 0)
  | VStr s => negb (String.eqb s "")
  end.

(** [a or b]: the first operand if it is truthy, else the second. *)
Definition or (a b : value) : value := if truthy a then a else b.

(** [str(v)], which is what an f-string placeholder [{v}] renders. *)
Definition str (v : value) : string :=
  match v with
  | VNone => "None"
  | VBool true => "True"
  | VBool false => "False"
  | VInt z => NilZero.string_of_int (Z.to_int z)
  | VStr s => s
  end.

(** A [dict] with string keys, in insertion order. *)
Definition Dict (V : Type) : Type := list (string * V).

Fixpoint lookup {V : Type} (d : Dict V) (k : string) : option V :=
  match d with
  | [] => None
  | (k', v) :: d' => if String.eqb k' k then Some v else lookup d' k
  end.

(** [d.get(k)] on a dictionary of values: [None] when the key is absent. *)
Definition get (d : Dict value) (k : string) : value :=
  match lookup d k with
  | Some v => v
  | None => VNone
  end.

(** [d[k] = v]: an existing key keeps its position and takes the new
    value, a new key is appended. *)
Fixpoint setitem {V : Type} (d : Dict V) (k : string) (v : V) : Dict V :=
  match d with
  | [] => [(k, v)]
  | (k', v') :: d' =>
      if String.eqb k' k then (k', v) :: d' else (k', v') :: setitem d' k v
  end.

Definition is_upper (c : ascii) : bool :=
  let n := N_of_ascii c in (65 <=? n)%N && (n <=? 90)%N.

Definition is_lower (c : ascii) : bool :=
  let n := N_of_ascii c in (97 <=? n)%N && (n <=? 122)%N.

Definition is_cased (c : ascii) : bool := is_upper c || is_lower c.

Definition lower_char (c : ascii) : ascii :=
  if is_upper c then ascii_of_N (N_of_ascii c + 32) else c.

Definition upper_char (c : ascii) : ascii :=
  if is_lower c then ascii_of_N (N_of_ascii c - 32) else c.

Fixpoint map_chars (f : ascii -> ascii) (s : string) : string :=
  match s with
  | EmptyString => EmptyString
  | String c s' => String (f c) (map_chars f s')
  end.

(** [s.lower()] and [s.upper()]. *)
Definition lower (s : string) : string := map_chars lower_char s.
Definition upper (s : string) : string := map_chars upper_char s.

(** [s.replace(old, new)] for one-character [old] and [new], the only
    way the engine calls it. *)
Definition replace (old new : ascii) (s : string) : string :=
  map_chars (fun c => if Ascii.eqb c old then new else c) s.

(** [s.title()]: a cased character is upper-cased when the character
    before it is not cased, and lower-cased otherwise. *)
Fixpoint title_from (previous_is_cased : bool) (s : string) : string :=
  match s with
  | EmptyString => EmptyString
  | String c s' =>
      String (if previous_is_cased then lower_char c else upper_char c)
             (title_from (is_cased c) s')
  end.

Definition title (s : string) : string := title_from false s.

(** [needle in hay] for strings. *)
Fixpoint starts_with (needle hay : string) : bool :=
  match needle, hay with
  | EmptyString, _ => true
  | String _ _, EmptyString => false
  | String a n', String b h' => Ascii.eqb a b && starts_with n' h'
  end.

Fixpoint contains (needle hay : string) : bool :=
  starts_with needle hay ||
  match hay with
  | EmptyString => false
  | String _ h' => contains needle h'
  end.

(** [needle] occurs in [hay] as a contiguous run of characters. *)
Definition occurs_in (needle hay : string) : Prop :=
  exists before after, hay = before ++ needle ++ after.

(** Exceptions derived from [Exception], the ones [except Exception]
    catches: the class name and the text [str(e)] gives. *)
Record exn : Type := Exception { exn_class : string; exn_str : string }.

(** The outcome of evaluating a call: a value, or a raised exception. *)
Inductive result (A : Type) : Type :=
| Return (a : A)
| Raise (e : exn).
Arguments Return {A} a.
Arguments Raise {A} e.

(** Attribute access on [None], as in [None.get(...)]. *)
Definition AttributeError_None_get : exn :=
  Exception "AttributeError" "'NoneType' object has no attribute 'get'".

End Py.

Definition nl : string := String (ascii_of_nat 10) EmptyString.

(** ** appeal_strategies.py *)

Module AppealStrategyAnalyzer.

Record AppealAngle : Type := {
  name : string;
  description : string;
  key_questions : list string;
  strength_indicators : list string;
  required_evidence : list string
}.

Definition APPEAL_ANGLES : Py.Dict AppealAngle := [
  ("procedural_error", {|
    name := "Procedural Error";
    description := "Citation was issued incorrectly or does not follow proper procedures";
    key_questions := [
      "Was the citation securely attached to your vehicle?";
      "Are all details on the citation accurate (date, time, location, vehicle info)?";
      "Did the officer follow proper procedures?";
      "Is the citation number valid and legible?" ];
    strength_indicators := [
      "Incorrect vehicle information";
      "Wrong date or time";
      "Citation not properly attached";
      "Missing required information";
      "Officer signature missing" ];
    required_evidence := [
      "Photos of the citation showing errors";
      "Vehicle registration showing correct information";
      "Photos showing improper attachment if applicable" ] |});
  ("signage_issues", {|
    name := "Inadequate or Confusing Signage";
    description := "Parking restrictions were not clearly posted or signs were confusing";
    key_questions := [
      "Were there clear signs indicating the parking restriction?";
      "Were the signs visible and unobstructed?";
      "Were there conflicting signs in the area?";
      "Was the sign text legible and in compliance with local standards?" ];
    strength_indicators := [
      "No sign visible from parking spot";
      "Sign obstructed by trees/objects";
      "Conflicting information from multiple signs";
      "Faded or illegible signs";
      "Sign not meeting MUTCD standards" ];
    required_evidence := [
      "Photos showing parking spot and nearby signage";
      "Photos of any obstructions or damaged signs";
      "Photos showing perspective from driver's position";
      "Multiple angles showing sign placement" ] |});
  ("meter_malfunction", {|
    name := "Meter or Payment System Malfunction";
    description := "The parking meter or payment system was not working properly";
    key_questions := [
      "Did you attempt to pay for parking?";
      "Was the meter displaying any error messages?";
      "Did you report the malfunction?";
      "Do you have proof of attempted payment?" ];
    strength_indicators := [
      "Meter displayed 'out of order'";
      "Payment transaction failed but money charged";
      "Receipt showing payment attempt";
      "Multiple users reporting same issue" ];
    required_evidence := [
      "Photos of meter showing malfunction";
      "Payment receipts or transaction records";
      "Credit card statement showing charge";
      "Report filed about meter malfunction" ] |});
  ("emergency_circumstances", {|
    name := "Emergency or Extenuating Circumstances";
    description := "Parking violation occurred due to an emergency situation";
    key_questions := [
      "What was the nature of the emergency?";
      "Do you have documentation of the emergency?";
      "Was this your first parking violation?";
      "How long was the vehicle parked?" ];
    strength_indicators := [
      "Medical emergency";
      "Vehicle breakdown";
      "Avoiding accident";
      "Personal safety concern";
      "Family emergency" ];
    required_evidence := [
      "Medical records or doctor's note";
      "Police report if applicable";
      "Tow truck receipt or mechanic report";
      "Photos showing vehicle condition";
      "Witness statements if available" ] |});
  ("payment_display_issue", {|
    name := "Valid Payment Not Displayed";
    description := "Payment was made but receipt was not properly displayed";
    key_questions := [
      "Did you pay for parking before the citation was issued?";
      "Do you have the parking receipt?";
      "Why was the receipt not displayed?";
      "What time was payment made vs. citation issued?" ];
    strength_indicators := [
      "Receipt timestamp before citation time";
      "Payment for correct zone/meter";
      "Receipt fell inside vehicle";
      "Wind blew receipt away" ];
    required_evidence := [
      "Original parking receipt";
      "Credit card or app payment confirmation";
      "Photos of receipt with timestamp";
      "Transaction records from parking app" ] |});
  ("zone_confusion", {|
    name := "Unclear Zone or Time Restrictions";
    description := "Zone boundaries or time restrictions were unclear or ambiguous";
    key_questions := [
      "Were zone boundaries clearly marked?";
      "Were time restrictions clearly posted?";
      "Were there multiple overlapping zones?";
      "Was the zone map accurate?" ];
    strength_indicators := [
      "No clear zone boundary markings";
      "Conflicting zone signs";
      "Time restriction periods unclear";
      "Street cleaning schedule ambiguous" ];
    required_evidence := [
      "Photos showing zone markings (or lack thereof)";
      "Photos of relevant signage";
      "Screenshot of official parking map if applicable";
      "Photos showing perspective of parking location" ] |});
  ("first_time_leniency", {|
    name := "First-Time Violation / Good Record";
    description := "Request for leniency based on clean parking record";
    key_questions := [
      "Is this your first parking violation in this jurisdiction?";
      "How long have you been parking in this area?";
      "Do you have a generally good compliance record?";
      "Was this an honest mistake?" ];
    strength_indicators := [
      "No prior parking citations";
      "Long-time resident or worker in area";
      "Regular parker with good history";
      "Simple misunderstanding of rules" ];
    required_evidence := [
      "Driving record or DMV printout";
      "Statement of good parking history";
      "Proof of residency or employment in area";
      "Character reference if applicable" ] |});
  ("disability_accommodation", {|
    name := "Disability-Related Accommodation";
    description := "Citation related to disability parking or accommodation needs";
    key_questions := [
      "Do you have a valid disability placard or license plate?";
      "Was the placard properly displayed?";
      "Was the accessible parking space properly marked?";
      "Were you denied reasonable accommodation?" ];
    strength_indicators := [
      "Valid disability placard not recognized";
      "Accessible space markings faded or unclear";
      "No accessible parking available";
      "Time limit insufficient for disability needs" ];
    required_evidence := [
      "Copy of disability placard documentation";
      "Photos showing placard displayed";
      "Photos of parking space markings";
      "Medical documentation if relevant" ] |});
  ("time_discrepancy", {|
    name := "Time Discrepancy or Error";
    description := "Citation time is incorrect or conflicts with actual circumstances";
    key_questions := [
      "What time did you park?";
      "What time did you leave?";
      "Do you have proof of your timeline?";
      "What time does the citation show?" ];
    strength_indicators := [
      "Citation time impossible or implausible";
      "Proof of being elsewhere at citation time";
      "Multiple citations same time different locations";
      "Meter time conflicts with citation time" ];
    required_evidence := [
      "Timestamped photos or videos";
      "Receipt or parking payment with timestamp";
      "GPS or phone location data";
      "Witness statements";
      "Business receipts showing location at citation time" ] |})
].

Definition get_all_angles : Py.Dict AppealAngle := APPEAL_ANGLES.

Definition get_angle (angle_key : string) : option AppealAngle :=
  Py.lookup APPEAL_ANGLES angle_key.

(** [relevant_angles.append(key)] when the condition holds. *)
Definition append_if (condition : Py.value) (key : string)
           (relevant_angles : list string) : list string :=
  if Py.truthy condition then relevant_angles ++ [key] else relevant_angles.

Definition analyze_situation (citation_details : Py.Dict Py.value) : list string :=
  let get := Py.get citation_details in
  let relevant_angles := [] in
  (* Check for procedural errors *)
  let relevant_angles :=
    append_if (Py.or (Py.or (get "has_errors") (get "missing_info"))
                     (get "incorrect_vehicle_info"))
              "procedural_error" relevant_angles in
  (* Check for signage issues *)
  let relevant_angles :=
    append_if (Py.or (Py.or (get "unclear_signage") (get "no_visible_signs"))
                     (get "conflicting_signs"))
              "signage_issues" relevant_angles in
  (* Check for meter issues *)
  let relevant_angles :=
    append_if (Py.or (Py.or (get "meter_malfunction") (get "payment_failed"))
                     (get "paid_but_cited"))
              "meter_malfunction" relevant_angles in
  (* Check for emergency *)
  let relevant_angles :=
    append_if (get "emergency_situation")
              "emergency_circumstances" relevant_angles in
  (* Check for payment display issue *)
  let relevant_angles :=
    append_if (Py.or (get "paid_not_displayed") (get "receipt_not_visible"))
              "payment_display_issue" relevant_angles in
  (* Check for zone confusion *)
  let relevant_angles :=
    append_if (Py.or (get "unclear_zone") (get "zone_boundary_unclear"))
              "zone_confusion" relevant_angles in
  (* Check for first-time situation *)
  let relevant_angles :=
    append_if (get "first_violation")
              "first_time_leniency" relevant_angles in
  (* Check for disability-related *)
  let relevant_angles :=
    append_if (Py.or (get "disability_related") (get "has_disability_placard"))
              "disability_accommodation" relevant_angles in
  (* Check for time issues *)
  let relevant_angles :=
    append_if (Py.or (get "time_incorrect") (get "timeline_conflicts"))
              "time_discrepancy" relevant_angles in
  (* If no specific angles identified, return a default set *)
  match relevant_angles with
  | [] => ["procedural_error"; "signage_issues"; "first_time_leniency"]
  | _ :: _ => relevant_angles
  end.

(** The key under which an evidence item is looked up:
    [evidence_item.lower().replace(" ", "_")]. *)
Definition evidence_key (evidence_item : string) : string :=
  Py.replace " "%char "_"%char (Py.lower evidence_item).

(** The loop over [angle.required_evidence] that counts the items
    present in the evidence. *)
Definition count_evidence (required : list string)
           (evidence : Py.Dict Py.value) : nat :=
  fold_left
    (fun evidence_count evidence_item =>
       if Py.truthy (Py.get evidence (evidence_key evidence_item))
       then evidence_count + 1 else evidence_count)
    required 0.

Definition float_of_nat (n : nat) : float :=
  PrimFloat.of_uint63 (Uint63.of_Z (Z.of_nat n)).

(** [evidence_count / len(required) if required else 0]: true division
    of two integers, a binary64 number. *)
Definition evidence_ratio (evidence_count required_len : nat) : float :=
  match required_len with
  | O => PrimFloat.of_uint63 0%uint63
  | S _ => PrimFloat.div (float_of_nat evidence_count) (float_of_nat required_len)
  end.

(** The comparisons against the literals [0.7] and [0.4], written as
    the binary64 numbers the literals denote. *)
Definition strength_of_ratio (ratio : float) : string :=
  if PrimFloat.leb 0x1.6666666666666p-1%float ratio then "strong"
  else if PrimFloat.leb 0x1.999999999999ap-2%float ratio then "moderate"
  else "weak".

Definition get_angle_strength (angle_key : string)
           (evidence : Py.Dict Py.value) : string :=
  match get_angle angle_key with
  | None => "weak"
  | Some angle =>
      let evidence_count := count_evidence (required_evidence angle) evidence in
      strength_of_ratio
        (evidence_ratio evidence_count (length (required_evidence angle)))
  end.

End AppealStrategyAnalyzer.

(** ** regulations.py *)

Module RegulationDatabase.

(** An entry of [STATE_REGULATIONS]. *)
Module State.
Record t : Type := {
  name : string;
  statute_limitations_days : Z;
  common_defenses : list string;
  appeal_address_format : string
}.
End State.

(** An entry of [CITY_REGULATIONS]. *)
Module City.
Record t : Type := {
  state : string;
  specific_rules : list string;
  online_appeal : bool;
  fee_waiver_available : bool
}.
End City.

(** The dictionary [get_combined_info] builds; an absent record is the
    Python [None]. *)
Module Info.
Record t : Type := {
  state : option State.t;
  city : option City.t;
  available_grounds : list string
}.
End Info.

Definition COMMON_APPEAL_GROUNDS : list string := [
  "unclear_signage";
  "emergency_circumstances";
  "vehicle_malfunction";
  "medical_emergency";
  "incorrect_citation_details";
  "meter_malfunction";
  "conflicting_signs";
  "first_time_offense";
  "extenuating_circumstances";
  "procedural_errors";
  "incorrect_vehicle_info";
  "paid_but_not_displayed";
  "time_discrepancy";
  "zone_confusion";
  "disability_accommodation"
].

Definition STATE_REGULATIONS : Py.Dict State.t := [
  ("CA", {|
    State.name := "California";
    State.statute_limitations_days := 21;
    State.common_defenses := [
      "CVC 22507.8 - Disabled parking violations require proper investigation";
      "CVC 40215 - Notice of parking violation must be securely attached";
      "Signage must comply with Manual on Uniform Traffic Control Devices (MUTCD)" ];
    State.appeal_address_format := "City parking authority or designated appeals board" |});
  ("NY", {|
    State.name := "New York";
    State.statute_limitations_days := 30;
    State.common_defenses := [
      "NYC Traffic Rules require clear and visible signage";
      "Broken meters - proof required within 7 days";
      "Emergency vehicles - documentation required" ];
    State.appeal_address_format := "Department of Finance, Parking Violations Bureau" |});
  ("TX", {|
    State.name := "Texas";
    State.statute_limitations_days := 21;
    State.common_defenses := [
      "Transportation Code 681.0101 - Proper notice requirements";
      "Sign visibility and compliance with state standards";
      "Meter malfunction - immediate reporting helps case" ];
    State.appeal_address_format := "Municipal court or designated hearing officer" |});
  ("FL", {|
    State.name := "Florida";
    State.statute_limitations_days := 30;
    State.common_defenses := [
      "F.S. 316.1967 - Parking regulations must be clearly posted";
      "Meter violations - malfunction must be documented";
      "Emergency circumstances with supporting documentation" ];
    State.appeal_address_format := "City clerk or parking violations bureau" |});
  ("IL", {|
    State.name := "Illinois";
    State.statute_limitations_days := 21;
    State.common_defenses := [
      "Chicago Municipal Code - signage requirements";
      "Meter payment issues - transaction records";
      "Medical emergency documentation" ];
    State.appeal_address_format := "Department of Administrative Hearings" |})
].

Definition CITY_REGULATIONS : Py.Dict City.t := [
  ("San Francisco", {|
    City.state := "CA";
    City.specific_rules := [
      "SFMTA requires photos of signage for signage-related appeals";
      "Street cleaning violations - check SFMTA calendar";
      "Residential permit zones - proof of residency required" ];
    City.online_appeal := true;
    City.fee_waiver_available := true |});
  ("Los Angeles", {|
    City.state := "CA";
    City.specific_rules := [
      "LADOT handles parking enforcement";
      "First-time violators may get reduced fines";
      "Photo evidence highly recommended" ];
    City.online_appeal := true;
    City.fee_waiver_available := false |});
  ("New York City", {|
    City.state := "NY";
    City.specific_rules := [
      "Online appeals through NYC.gov required for most violations";
      "Hearing requests must be filed within 30 days";
      "Evidence upload system available online" ];
    City.online_appeal := true;
    City.fee_waiver_available := false |});
  ("Chicago", {|
    City.state := "IL";
    City.specific_rules := [
      "City of Chicago parking ticket portal";
      "Early payment discount available (not applicable if appealing)";
      "Administrative hearing process" ];
    City.online_appeal := true;
    City.fee_waiver_available := false |});
  ("Houston", {|
    City.state := "TX";
    City.specific_rules := [
      "Houston Municipal Courts handle appeals";
      "Written statement required for appeal";
      "Court appearance may be required for some violations" ];
    City.online_appeal := false;
    City.fee_waiver_available := true |});
  ("Miami", {|
    City.state := "FL";
    City.specific_rules := [
      "Miami Parking Authority handles enforcement";
      "Online contest system available";
      "Supporting documents must be uploaded or mailed" ];
    City.online_appeal := true;
    City.fee_waiver_available := false |})
].

Definition get_state_info (state_code : string) : option State.t :=
  Py.lookup STATE_REGULATIONS (Py.upper state_code).

Definition get_city_info (city_name : string) : option City.t :=
  Py.lookup CITY_REGULATIONS city_name.

(** [city_name] is [Optional[str]]: [None] is the absent name. *)
Definition get_combined_info (city_name : option string)
           (state_code : string) : Info.t :=
  let info := {| Info.state := get_state_info state_code;
                 Info.city := None;
                 Info.available_grounds := COMMON_APPEAL_GROUNDS |} in
  match city_name with
  | None => info
  | Some city_name =>
      if Py.truthy (Py.VStr city_name) then
        match get_city_info city_name with
        | Some city_info =>
            if String.eqb (City.state city_info) (Py.upper state_code)
            then {| Info.state := Info.state info;
                    Info.city := Some city_info;
                    Info.available_grounds := Info.available_grounds info |}
            else info
        | None => info
        end
      else info
  end.

Definition get_all_states : list string := map fst STATE_REGULATIONS.

Definition get_cities_for_state (state_code : string) : list string :=
  let state_code := Py.upper state_code in
  map fst
      (filter (fun entry => String.eqb (City.state (snd entry)) state_code)
              CITY_REGULATIONS).

End RegulationDatabase.

(** ** appeal_generator.py *)

Module AppealGenerator.

Import RegulationDatabase.

(** The external text generator: what the call numbered [n] (counting
    from zero) answers to a prompt, the generated text or an exception.
    It stands for [self.model.generate_content(prompt).text]. *)
Definition Model : Type := nat -> string -> Py.result string.

(** The prompts sent to the generator so far, oldest first. *)
Definition Log : Type := list string.

(** Computations that call the generator and may raise. *)
Definition M (A : Type) : Type := Log -> Py.result A * Log.

Definition ret {A : Type} (a : A) : M A := fun log => (Py.Return a, log).

Definition raise {A : Type} (e : Py.exn) : M A := fun log => (Py.Raise e, log).

Definition bind {A B : Type} (m : M A) (f : A -> M B) : M B :=
  fun log =>
    match m log with
    | (Py.Return a, log') => f a log'
    | (Py.Raise e, log') => (Py.Raise e, log')
    end.

(** [try: body  except Exception as e: handler]. *)
Definition try_except {A : Type} (body : M A) (handler : Py.exn -> M A) : M A :=
  fun log =>
    match body log with
    | (Py.Return a, log') => (Py.Return a, log')
    | (Py.Raise e, log') => handler e log'
    end.

Notation "x <- m ;; k" := (bind m (fun x => k))
  (at level 61, m at next level, right associativity).

Definition generate_content (model : Model) (prompt : string) : M string :=
  fun log => (model (length log) prompt, (log ++ [prompt])%list).

(** One rendered dictionary entry:
    [f"- {key.replace('_', ' ').title()}: {value}\n"]. *)
Definition entry_line (key : string) (value : Py.value) : string :=
  "- " ++ Py.title (Py.replace "_"%char " "%char key) ++ ": " ++ Py.str value ++ nl.

(** [for key, value in data.items(): if value: text += entry line]. *)
Definition add_entries (text : string) (data : Py.Dict Py.value) : string :=
  fold_left
    (fun text entry =>
       if Py.truthy (snd entry) then text ++ entry_line (fst entry) (snd entry)
       else text)
    data text.

(** [for item in items: text += f"{bullet}{item}\n"]. *)
Definition add_bullets (bullet : string) (text : string) (items : list string) : string :=
  fold_left (fun text item => text ++ bullet ++ item ++ nl) items text.

Definition _build_appeal_prompt (citation_details : Py.Dict Py.value)
           (location_info : Info.t) (angle : AppealStrategyAnalyzer.AppealAngle)
           (evidence : Py.Dict Py.value) : string :=
  let state_info := Info.state location_info in
  let city_info := Info.city location_info in
  let prompt :=
    "You are an expert legal assistant specializing in parking citation appeals." ++ nl ++
    "Your task is to write a compelling, professional, and legally sound appeal letter." ++ nl ++
    nl ++
    "APPEAL STRATEGY: " ++ AppealStrategyAnalyzer.name angle ++ nl ++
    "STRATEGY DESCRIPTION: " ++ AppealStrategyAnalyzer.description angle ++ nl ++
    nl ++
    "CITATION DETAILS:" ++ nl in
  (* Add citation information *)
  let prompt := add_entries prompt citation_details in
  let prompt := prompt ++ nl ++ nl ++ "JURISDICTION INFORMATION:" ++ nl in
  (* Add jurisdiction info *)
  let prompt :=
    match state_info with
    | Some state_info =>
        let prompt := prompt ++ "State: " ++ State.name state_info ++ nl in
        let prompt :=
          prompt ++ "Appeal Deadline: " ++
          Py.str (Py.VInt (State.statute_limitations_days state_info)) ++
          " days from citation" ++ nl in
        match State.common_defenses state_info with
        | [] => prompt
        | _ :: _ =>
            let prompt := prompt ++ nl ++ "Relevant State Regulations:" ++ nl in
            add_bullets "- " prompt (State.common_defenses state_info)
        end
    | None => prompt
    end in
  let prompt :=
    match city_info with
    | Some city_info =>
        let prompt := prompt ++ nl ++ "City-Specific Information:" ++ nl in
        let prompt :=
          match City.specific_rules city_info with
          | [] => prompt
          | _ :: _ => add_bullets "- " prompt (City.specific_rules city_info)
          end in
        prompt ++ "Online Appeal Available: " ++
        Py.str (Py.VBool (City.online_appeal city_info)) ++ nl
    | None => prompt
    end in
  let prompt := prompt ++ nl ++ nl ++ "AVAILABLE EVIDENCE:" ++ nl in
  (* Add evidence *)
  let prompt := add_entries prompt evidence in
  let prompt := prompt ++ nl ++ nl ++ "KEY POINTS FOR THIS APPEAL ANGLE:" ++ nl in
  let prompt := add_bullets "- " prompt (AppealStrategyAnalyzer.strength_indicators angle) in
  let prompt :=
    prompt ++ nl ++
    nl ++
    "REQUIRED STRUCTURE:" ++ nl ++
    "1. Opening: Brief, professional greeting and statement of purpose" ++ nl ++
    "2. Citation Information: Reference the citation number, date, location" ++ nl ++
    "3. Main Argument: Present the " ++ AppealStrategyAnalyzer.name angle ++
      " case clearly and persuasively" ++ nl ++
    "4. Supporting Evidence: Reference all available evidence that supports this angle" ++ nl ++
    "5. Legal/Regulatory Basis: Cite relevant regulations from the jurisdiction" ++ nl ++
    "6. Conclusion: Respectful request for dismissal or reduction" ++ nl ++
    "7. Closing: Professional sign-off" ++ nl ++
    nl ++
    "TONE REQUIREMENTS:" ++ nl ++
    "- Professional and respectful" ++ nl ++
    "- Factual and objective" ++ nl ++
    "- Confident but not aggressive" ++ nl ++
    "- Empathetic where appropriate" ++ nl ++
    "- Legally informed" ++ nl ++
    nl ++
    "IMPORTANT GUIDELINES:" ++ nl ++
    "- Do NOT fabricate facts or evidence not provided" ++ nl ++
    "- Cite specific regulations when applicable" ++ nl ++
    "- Keep the letter concise (300-500 words ideal)" ++ nl ++
    "- Use formal business letter format" ++ nl ++
    "- Be specific about dates, times, and locations" ++ nl ++
    "- Request specific relief (dismissal or reduction of fine)" ++ nl ++
    nl ++
    "Generate the appeal letter now:" in
  prompt.

Definition _generate_single_angle_appeal (model : Model)
           (citation_details : Py.Dict Py.value) (location_info : Info.t)
           (angle : AppealStrategyAnalyzer.AppealAngle)
           (evidence : Py.Dict Py.value) : M string :=
  (* Build context for the AI *)
  let prompt := _build_appeal_prompt citation_details location_info angle evidence in
  try_except
    (generate_content model prompt)
    (fun e => ret ("Error generating appeal: " ++ Py.exn_str e)).

(** The loop of [generate_multi_angle_appeal] over [selected_angles],
    with the dictionary [appeals] built so far. *)
Fixpoint multi_angle_loop (model : Model) (citation_details : Py.Dict Py.value)
         (location_info : Info.t) (selected_angles : list string)
         (evidence : Py.Dict Py.value) (appeals : Py.Dict string)
  : M (Py.Dict string) :=
  match selected_angles with
  | [] => ret appeals
  | angle_key :: rest =>
      match AppealStrategyAnalyzer.get_angle angle_key with
      | Some angle =>
          appeal_text <- _generate_single_angle_appeal
                           model citation_details location_info angle evidence ;;
          multi_angle_loop model citation_details location_info rest evidence
            (Py.setitem appeals (AppealStrategyAnalyzer.name angle) appeal_text)
      | None =>
          multi_angle_loop model citation_details location_info rest evidence appeals
      end
  end.

Definition generate_multi_angle_appeal (model : Model)
           (citation_details : Py.Dict Py.value) (location_info : Info.t)
           (selected_angles : list string) (evidence : Py.Dict Py.value)
  : M (Py.Dict string) :=
  multi_angle_loop model citation_details location_info selected_angles evidence [].

Definition _format_dict (data : Py.Dict Py.value) : string :=
  match data with
  | [] => "None provided"
  | _ :: _ =>
      let formatted := add_entries "" data in
      if Py.truthy (Py.VStr formatted) then formatted else "None provided"
  end.

(** The list comprehension that keeps the angles [get_angle] resolves. *)
Definition resolve_angles (all_angles : list string)
  : list AppealStrategyAnalyzer.AppealAngle :=
  flat_map
    (fun angle_key =>
       match AppealStrategyAnalyzer.get_angle angle_key with
       | Some angle => [angle]
       | None => []
       end)
    all_angles.

(** The per-angle block of the comprehensive prompt. *)
Definition add_angle_summary (prompt : string)
           (angle : AppealStrategyAnalyzer.AppealAngle) : string :=
  let prompt := prompt ++ nl ++ AppealStrategyAnalyzer.name angle ++ ":" ++ nl in
  let prompt :=
    prompt ++ "Description: " ++ AppealStrategyAnalyzer.description angle ++ nl in
  let prompt := prompt ++ "Key points:" ++ nl in
  (* Top 3 points per angle *)
  add_bullets "  - " prompt (firstn 3 (AppealStrategyAnalyzer.strength_indicators angle)).

(** The part of [generate_comprehensive_appeal] that assembles the
    prompt.  [location_info.get("state", {})] is the stored value, [None]
    for an unknown state, and [state_info.get] on it raises. *)
Definition comprehensive_prompt (citation_details : Py.Dict Py.value)
           (location_info : Info.t) (all_angles : list string)
           (evidence : Py.Dict Py.value) : Py.result string :=
  let state_info := Info.state location_info in
  let city_info := Info.city location_info in
  (* Get angle details *)
  let angle_details := resolve_angles all_angles in
  match state_info with
  | None => Py.Raise Py.AttributeError_None_get
  | Some state_info =>
      let prompt :=
        "You are an expert legal assistant specializing in parking citation appeals." ++ nl ++
        "Write a single, comprehensive appeal letter that strategically incorporates multiple strong arguments." ++ nl ++
        nl ++
        "CITATION DETAILS:" ++ nl ++
        _format_dict citation_details ++ nl ++
        nl ++
        "JURISDICTION:" ++ nl ++
        "State: " ++ State.name state_info ++ nl ++
        "Appeal Deadline: " ++
          Py.str (Py.VInt (State.statute_limitations_days state_info)) ++ " days" ++ nl in
      let prompt :=
        match State.common_defenses state_info with
        | [] => prompt
        | _ :: _ =>
            let prompt := prompt ++ nl ++ "Relevant Regulations:" ++ nl in
            add_bullets "- " prompt (State.common_defenses state_info)
        end in
      let prompt :=
        match city_info with
        | Some city_info =>
            match City.specific_rules city_info with
            | [] => prompt
            | _ :: _ =>
                let prompt := prompt ++ nl ++ "City-Specific Rules:" ++ nl in
                add_bullets "- " prompt (City.specific_rules city_info)
            end
        | None => prompt
        end in
      let prompt :=
        prompt ++ nl ++ nl ++ "AVAILABLE EVIDENCE:" ++ nl ++ _format_dict evidence in
      let prompt := prompt ++ nl ++ nl ++ "APPEAL ANGLES TO INCORPORATE:" ++ nl in
      let prompt := fold_left add_angle_summary angle_details prompt in
      let prompt :=
        prompt ++ nl ++
        nl ++
        "Create a single, unified appeal letter that:" ++ nl ++
        "1. Opens professionally with citation reference" ++ nl ++
        "2. Presents the strongest arguments from the available angles" ++ nl ++
        "3. Weaves multiple points together coherently (don't list angles separately)" ++ nl ++
        "4. Cites relevant regulations and laws" ++ nl ++
        "5. References all supporting evidence naturally" ++ nl ++
        "6. Maintains a respectful, professional tone throughout" ++ nl ++
        "7. Concludes with a clear request for relief" ++ nl ++
        nl ++
        "The letter should read as a cohesive whole, not as separate sections for each angle." ++ nl ++
        "Aim for 400-600 words. Use formal business letter format." in
      Py.Return prompt
  end.

Definition generate_comprehensive_appeal (model : Model)
           (citation_details : Py.Dict Py.value) (location_info : Info.t)
           (all_angles : list string) (evidence : Py.Dict Py.value) : M string :=
  match comprehensive_prompt citation_details location_info all_angles evidence with
  | Py.Raise e => raise e
  | Py.Return prompt =>
      try_except
        (generate_content model prompt)
        (fun e => ret ("Error generating comprehensive appeal: " ++ Py.exn_str e))
  end.

End AppealGenerator.

(** ** The classifier as a rule table *)

Module ClassifierSpec.

(** The rules in priority order: the angle key and the facts whose
    disjunction triggers it. *)
Definition RULES : list (string * list string) := [
  ("procedural_error", ["has_errors"; "missing_info"; "incorrect_vehicle_info"]);
  ("signage_issues", ["unclear_signage"; "no_visible_signs"; "conflicting_signs"]);
  ("meter_malfunction", ["meter_malfunction"; "payment_failed"; "paid_but_cited"]);
  ("emergency_circumstances", ["emergency_situation"]);
  ("payment_display_issue", ["paid_not_displayed"; "receipt_not_visible"]);
  ("zone_confusion", ["unclear_zone"; "zone_boundary_unclear"]);
  ("first_time_leniency", ["first_violation"]);
  ("disability_accommodation", ["disability_related"; "has_disability_placard"]);
  ("time_discrepancy", ["time_incorrect"; "timeline_conflicts"])
].

Definition PRIORITY_ORDER : list string := map fst RULES.

Definition TRIGGER_KEYS : list string := [
  "has_errors"; "missing_info"; "incorrect_vehicle_info";
  "unclear_signage"; "no_visible_signs"; "conflicting_signs";
  "meter_malfunction"; "payment_failed"; "paid_but_cited";
  "emergency_situation";
  "paid_not_displayed"; "receipt_not_visible";
  "unclear_zone"; "zone_boundary_unclear";
  "first_violation";
  "disability_related"; "has_disability_placard";
  "time_incorrect"; "timeline_conflicts"
].

Definition FALLBACK : list string :=
  ["procedural_error"; "signage_issues"; "first_time_leniency"].

Definition flag (facts : Py.Dict Py.value) (key : string) : bool :=
  Py.truthy (Py.get facts key).

Definition rule_satisfied (facts : Py.Dict Py.value)
           (rule : string * list string) : bool :=
  existsb (flag facts) (snd rule).

Definition satisfied_angles (facts : Py.Dict Py.value) : list string :=
  map fst (filter (rule_satisfied facts) RULES).

Definition any_trigger (facts : Py.Dict Py.value) : bool :=
  existsb (flag facts) TRIGGER_KEYS.

End ClassifierSpec.

(** ** The evaluator over exact ratios *)

Module EvaluatorSpec.

(** The number of required-evidence items whose derived key maps to a
    truthy value in the evidence. *)
Definition matches (angle : AppealStrategyAnalyzer.AppealAngle)
           (evidence : Py.Dict Py.value) : nat :=
  length
    (filter
       (fun item =>
          Py.truthy (Py.get evidence (AppealStrategyAnalyzer.evidence_key item)))
       (AppealStrategyAnalyzer.required_evidence angle)).

(** [matches / count] as a rational number, and 0 for an empty list. *)
Definition ratio (matches count : nat) : Q :=
  match count with
  | O => 0%Q
  | S _ => (Z.of_nat matches # Pos.of_nat count)%Q
  end.

Definition band (r : Q) : string :=
  if Qle_bool (7 # 10) r then "strong"
  else if Qle_bool (4 # 10) r then "moderate"
  else "weak".

(** weak < moderate < strong. *)
Definition rank (strength : string) : nat :=
  if String.eqb strength "strong" then 2
  else if String.eqb strength "moderate" then 1
  else 0.

(** The float computation and the exact one give the same band for
    every count up to [bound]. *)
Definition bands_agree_upto (bound : nat) : bool :=
  forallb
    (fun count =>
       forallb
         (fun m =>
            String.eqb
              (AppealStrategyAnalyzer.strength_of_ratio
                 (AppealStrategyAnalyzer.evidence_ratio m count))
              (band (ratio m count)))
         (seq 0 (S count)))
    (seq 0 (S bound)).

End EvaluatorSpec.

(** ** The batch of requests, spelled out *)

Module BatchSpec.

(** What the single-angle operation returns for the call numbered [n]. *)
Definition appeal_text (model : AppealGenerator.Model) (n : nat)
           (prompt : string) : string :=
  match model n prompt with
  | Py.Return text => text
  | Py.Raise e => "Error generating appeal: " ++ Py.exn_str e
  end.

Fixpoint appeal_texts (model : AppealGenerator.Model) (n : nat)
         (prompts : list string) : list string :=
  match prompts with
  | [] => []
  | prompt :: rest => appeal_text model n prompt :: appeal_texts model (S n) rest
  end.

(** Successive assignments [d[key] = value], starting from [d]. *)
Definition assign_all {V : Type} (d : Py.Dict V) (pairs : list (string * V))
  : Py.Dict V :=
  fold_left (fun d pair => Py.setitem d (fst pair) (snd pair)) pairs d.

End BatchSpec.

(** ** More of Python's string methods *)

Module PyText.

(** The ASCII characters [str.strip] and [str.isspace] treat as
    whitespace: tab to carriage return, the four separators 28 to 31,
    and the space. *)
Definition is_space (c : ascii) : bool :=
  let n := N_of_ascii c in
  ((9 <=? n)%N && (n <=? 13)%N) || ((28 <=? n)%N && (n <=? 32)%N).

Fixpoint lstrip_by (drop : ascii -> bool) (s : string) : string :=
  match s with
  | EmptyString => EmptyString
  | String c s' => if drop c then lstrip_by drop s' else s
  end.

Fixpoint rstrip_by (drop : ascii -> bool) (s : string) : string :=
  match s with
  | EmptyString => EmptyString
  | String c s' =>
      match rstrip_by drop s' with
      | EmptyString => if drop c then EmptyString else String c EmptyString
      | String c' r => String c (String c' r)
      end
  end.

(** [s.strip()]. *)
Definition strip (s : string) : string :=
  rstrip_by is_space (lstrip_by is_space s).

Fixpoint has_char (c : ascii) (chars : string) : bool :=
  match chars with
  | EmptyString => false
  | String c' chars' => Ascii.eqb c c' || has_char c chars'
  end.

(** [s.lstrip(chars)]: leading characters that belong to [chars] are
    removed. *)
Definition lstrip_chars (chars : string) (s : string) : string :=
  lstrip_by (fun c => has_char c chars) s.

(** [s.split(sep)] for a one-character separator. *)
Fixpoint split (sep : ascii) (s : string) : list string :=
  match s with
  | EmptyString => [EmptyString]
  | String c s' =>
      match split sep s' with
      | [] => []
      | piece :: rest =>
          if Ascii.eqb c sep then EmptyString :: piece :: rest
          else String c piece :: rest
      end
  end.

(** [sep.join(items)]. *)
Fixpoint join (sep : string) (items : list string) : string :=
  match items with
  | [] => EmptyString
  | [item] => item
  | item :: rest => item ++ sep ++ join sep rest
  end.

Definition line_feed : ascii := ascii_of_nat 10.
Definition single_quote : ascii := ascii_of_nat 39.
Definition double_quote : ascii := ascii_of_nat 34.
Definition backslash : ascii := ascii_of_nat 92.

Definition hex_digit (n : N) : ascii :=
  if (n <? 10)%N then ascii_of_N (48 + n) else ascii_of_N (87 + n).

(** One character of [repr(s)] for a string quoted with [quote]. *)
Definition repr_char (quote : ascii) (c : ascii) : string :=
  let n := N_of_ascii c in
  if Ascii.eqb c quote || Ascii.eqb c backslash
  then String backslash (String c EmptyString)
  else if (n =? 9)%N then String backslash "t"
  else if (n =? 10)%N then String backslash "n"
  else if (n =? 13)%N then String backslash "r"
  else if (n <? 32)%N || (n =? 127)%N
  then String backslash
         (String "x" (String (hex_digit (n / 16)) (String (hex_digit (n mod 16)) EmptyString)))
  else String c EmptyString.

Fixpoint repr_chars (quote : ascii) (s : string) : string :=
  match s with
  | EmptyString => EmptyString
  | String c s' => repr_char quote c ++ repr_chars quote s'
  end.

(** [repr(s)]: double quotes when the string has a single quote and no
    double quote, single quotes otherwise. *)
Definition repr (s : string) : string :=
  let quote :=
    if has_char single_quote s && negb (has_char double_quote s)
    then double_quote else single_quote in
  String quote (repr_chars quote s ++ String quote EmptyString).

(** [str(items)] for a list of strings. *)
Definition str_of_list (items : list string) : string :=
  "[" ++ join ", " (map repr items) ++ "]".

End PyText.

(** ** appeal_generator.py: analysis and follow-up questions *)

Module AppealGeneratorAnalysis.

Import RegulationDatabase AppealGenerator.

(** A value of the state dictionary: a scalar, or the list of defenses. *)
Inductive item : Type :=
| Scalar (v : Py.value)
| Strings (l : list string).

Definition item_truthy (i : item) : bool :=
  match i with
  | Scalar v => Py.truthy v
  | Strings [] => false
  | Strings (_ :: _) => true
  end.

Definition item_str (i : item) : string :=
  match i with
  | Scalar v => Py.str v
  | Strings l => PyText.str_of_list l
  end.

(** A state record as the dictionary it is, keys in source order. *)
Definition state_items (state_info : State.t) : Py.Dict item := [
  ("name", Scalar (Py.VStr (State.name state_info)));
  ("statute_limitations_days",
   Scalar (Py.VInt (State.statute_limitations_days state_info)));
  ("common_defenses", Strings (State.common_defenses state_info));
  ("appeal_address_format",
   Scalar (Py.VStr (State.appeal_address_format state_info)))
].

(** [_format_dict] on a dictionary that may hold a list. *)
Definition _format_dict_items (data : Py.Dict item) : string :=
  match data with
  | [] => "None provided"
  | _ :: _ =>
      let formatted :=
        fold_left
          (fun formatted entry =>
             if item_truthy (snd entry)
             then formatted ++ "- " ++
                  Py.title (Py.replace "_"%char " "%char (fst entry)) ++
                  ": " ++ item_str (snd entry) ++ nl
             else formatted)
          data "" in
      if Py.truthy (Py.VStr formatted) then formatted else "None provided"
  end.

(** [self._format_dict(location_info.get('state', {}))]: the stored
    state, [None] for an unknown code. *)
Definition format_state (state_info : option State.t) : string :=
  match state_info with
  | None => "None provided"
  | Some state_info => _format_dict_items (state_items state_info)
  end.

Definition analysis_prompt (citation_details : Py.Dict Py.value)
           (location_info : Info.t) (evidence : Py.Dict Py.value) : string :=
  "You are a parking citation appeal expert. Analyze this situation and provide" ++ nl ++
  "a brief assessment of the likelihood of a successful appeal." ++ nl ++
  nl ++
  "CITATION DETAILS:" ++ nl ++
  _format_dict citation_details ++ nl ++
  nl ++
  "JURISDICTION:" ++ nl ++
  format_state (Info.state location_info) ++ nl ++
  nl ++
  "AVAILABLE EVIDENCE:" ++ nl ++
  _format_dict evidence ++ nl ++
  nl ++
  "Provide a concise analysis including:" ++ nl ++
  "1. Overall appeal strength (Strong/Moderate/Weak)" ++ nl ++
  "2. Best appeal angles to pursue (top 2-3)" ++ nl ++
  "3. Key factors supporting the appeal" ++ nl ++
  "4. Potential weaknesses to address" ++ nl ++
  "5. Recommended next steps" ++ nl ++
  nl ++
  "Keep the analysis under 300 words.".

Definition analyze_citation_strength (model : Model)
           (citation_details : Py.Dict Py.value) (location_info : Info.t)
           (evidence : Py.Dict Py.value) : M (Py.Dict Py.value) :=
  let prompt := analysis_prompt citation_details location_info evidence in
  try_except
    (response_text <- generate_content model prompt ;;
     ret [("success", Py.VBool true); ("analysis", Py.VStr response_text)])
    (fun e =>
       ret [("success", Py.VBool false); ("error", Py.VStr (Py.exn_str e))]).

Definition follow_up_prompt (citation_details : Py.Dict Py.value)
           (angle : AppealStrategyAnalyzer.AppealAngle) : string :=
  "Based on this parking citation appeal case, suggest 3-5 specific questions" ++ nl ++
  "that would help gather additional information to strengthen the appeal." ++ nl ++
  nl ++
  "APPEAL ANGLE: " ++ AppealStrategyAnalyzer.name angle ++ nl ++
  "CURRENT INFORMATION:" ++ nl ++
  _format_dict citation_details ++ nl ++
  nl ++
  "STANDARD QUESTIONS FOR THIS ANGLE:" ++ nl ++
  PyText.join nl
    (map (fun q => "- " ++ q) (AppealStrategyAnalyzer.key_questions angle)) ++ nl ++
  nl ++
  "Generate additional specific questions that:" ++ nl ++
  "1. Are directly relevant to this specific situation" ++ nl ++
  "2. Would uncover helpful evidence or details" ++ nl ++
  "3. Are clear and easy to answer" ++ nl ++
  "4. Haven't already been covered" ++ nl ++
  nl ++
  "Format: Return only the questions, one per line, numbered.".

(** The condition of the list comprehension: the stripped line is not
    empty and does not start with [#]. *)
Definition keeps_line (line : string) : bool :=
  Py.truthy (Py.VStr (PyText.strip line))
  && negb (Py.starts_with "#" (PyText.strip line)).

(** The list comprehension that parses the response into questions. *)
Definition parse_questions (response_text : string) : list string :=
  map (fun line =>
         PyText.strip
           (PyText.lstrip_chars "0123456789.-) " (PyText.strip line)))
      (filter keeps_line (PyText.split PyText.line_feed response_text)).

Definition suggest_follow_up_questions (model : Model)
           (citation_details : Py.Dict Py.value)
           (angle : AppealStrategyAnalyzer.AppealAngle) : M (list string) :=
  let prompt := follow_up_prompt citation_details angle in
  try_except
    (response_text <- generate_content model prompt ;;
     (* Parse the response into a list *)
     let questions := parse_questions response_text in
     (* Limit to 5 questions *)
     ret (firstn 5 questions))
    (fun e => ret ["Error generating questions: " ++ Py.exn_str e]).

End AppealGeneratorAnalysis.

(** ** workflow.py *)

Module AppealWorkflow.

Import RegulationDatabase AppealGenerator.

(** [quick_appeal]: the location passed on holds the state found by the
    combined lookup and no city; it has no [available_grounds] key, which
    the generator does not read. *)
Definition quick_appeal (model : Model) (citation_number state violation_type : string)
  : M string :=
  let citation_details := [
    ("citation_number", Py.VStr citation_number);
    ("violation_type", Py.VStr violation_type);
    ("first_violation", Py.VBool true) ] in
  let location_info := get_combined_info None state in
  (* Use basic angles *)
  let angles := ["procedural_error"; "first_time_leniency"] in
  generate_comprehensive_appeal model citation_details
    {| Info.state := Info.state location_info;
       Info.city := None;
       Info.available_grounds := [] |}
    angles [].


End AppealWorkflow.

(** ** questionnaire.py *)

Module InteractiveQuestionnaire.

(** The loop of [gather_evidence_details] over the selected evidence
    types, each paired with the description the user typed for it (the
    empty string when none was given). *)
Fixpoint record_evidence (selected : list (string * string))
         (evidence : Py.Dict Py.value) : Py.Dict Py.value :=
  match selected with
  | [] => evidence
  | (evidence_type, details) :: rest =>
      let key :=
        Py.replace "/"%char "_"%char
          (Py.replace " "%char "_"%char (Py.lower evidence_type)) in
      let evidence := Py.setitem evidence ("has_" ++ key) (Py.VBool true) in
      let evidence :=
        if Py.truthy (Py.VStr details)
        then Py.setitem evidence (key ++ "_details") (Py.VStr details)
        else evidence in
      record_evidence rest evidence
  end.

(** The angles [identify_appeal_angles] presents, each with the strength
    it reports for the evidence gathered. *)
Definition presented_angles (citation_details evidence : Py.Dict Py.value)
  : list (string * AppealStrategyAnalyzer.AppealAngle * string) :=
  flat_map
    (fun angle_key =>
       match AppealStrategyAnalyzer.get_angle angle_key with
       | Some angle =>
           [(angle_key, angle,
             AppealStrategyAnalyzer.get_angle_strength angle_key evidence)]
       | None => []
       end)
    (AppealStrategyAnalyzer.analyze_situation citation_details).

End InteractiveQuestionnaire.

(** ** web/app.py *)

Module WebApp.

(** [data.get(key, default)]. *)
Definition get_or (data : Py.Dict Py.value) (key : string)
           (default : Py.value) : Py.value :=
  match Py.lookup data key with
  | Some v => v
  | None => default
  end.

(** An element of the [suggested_angles] list of the response. *)
Record AngleDetail : Type := {
  key : string;
  name : string;
  description : string;
  questions : list string
}.

Record AnalyzeResponse : Type := {
  success : bool;
  suggested_angles : list AngleDetail
}.

(** The facts [analyze_citation] copies from the JSON object [data]. *)
Definition analyze_citation_details (data : Py.Dict Py.value)
  : Py.Dict Py.value := [
  ("citation_number", Py.get data "citation_number");
  ("violation_type", Py.get data "violation_type");
  ("unclear_signage", get_or data "unclear_signage" (Py.VBool false));
  ("meter_malfunction", get_or data "meter_malfunction" (Py.VBool false));
  ("emergency_situation", get_or data "emergency_situation" (Py.VBool false));
  ("paid_for_parking", get_or data "paid_for_parking" (Py.VBool false));
  ("paid_not_displayed", get_or data "paid_not_displayed" (Py.VBool false));
  ("first_violation", get_or data "first_violation" (Py.VBool false));
  ("time_incorrect", get_or data "time_incorrect" (Py.VBool false));
  ("has_disability_placard", get_or data "has_disability_placard" (Py.VBool false));
  ("incorrect_vehicle_info", get_or data "incorrect_vehicle_info" (Py.VBool false))
].

(** [analyze_citation] for a JSON object body [data]. *)
Definition analyze_citation (data : Py.Dict Py.value) : AnalyzeResponse :=
  let citation_details := analyze_citation_details data in
  (* Analyze situation *)
  let suggested_angles := AppealStrategyAnalyzer.analyze_situation citation_details in
  (* Get details for each angle *)
  let angle_details :=
    flat_map
      (fun angle_key =>
         match AppealStrategyAnalyzer.get_angle angle_key with
         | Some angle =>
             [{| key := angle_key;
                 name := AppealStrategyAnalyzer.name angle;
                 description := AppealStrategyAnalyzer.description angle;
                 questions := firstn 3 (AppealStrategyAnalyzer.key_questions angle) |}]
         | None => []
         end)
      suggested_angles in
  {| success := true; suggested_angles := angle_details |}.

(** The trigger facts the endpoint copies from the request. *)
Definition COPIED_TRIGGERS : list string := [
  "unclear_signage"; "meter_malfunction"; "emergency_situation";
  "paid_not_displayed"; "first_violation"; "time_incorrect";
  "has_disability_placard"; "incorrect_vehicle_info"
].

End WebApp.

(** ** web/app.py: the generation endpoint *)

Module WebAppGenerate.

Import RegulationDatabase AppealGenerator AppealGeneratorAnalysis.

(** The JSON object of the request: its scalar members in [fields], and
    the two list members apart, the empty list standing for a member
    that is missing or empty. *)
Record Request : Type := {
  fields : Py.Dict Py.value;
  selected_angles : list string;
  evidence_items : list string
}.

(** The JSON response with its HTTP status: the success body, or a
    failure body with the status given beside it. *)
Inductive Response : Type :=
| Generated (appeal : string) (analysis : Py.value) (angles_used : list string)
| Failed (status : nat) (error : string).

(** [state_code.upper()] on the value of the [state] member: only a
    string has the method. *)
Definition state_code_of (state : Py.value) : Py.result string :=
  match state with
  | Py.VStr s => Py.Return s
  | Py.VNone =>
      Py.Raise (Py.Exception "AttributeError"
                  "'NoneType' object has no attribute 'upper'")
  | Py.VBool _ =>
      Py.Raise (Py.Exception "AttributeError"
                  "'bool' object has no attribute 'upper'")
  | Py.VInt _ =>
      Py.Raise (Py.Exception "AttributeError"
                  "'int' object has no attribute 'upper'")
  end.

(** The city handed to [get_combined_info]: a value that is not a string
    is falsy or is no key of the city catalog, and leaves the city
    absent as the missing name does. *)
Definition city_name_of (city : Py.value) : option string :=
  match city with
  | Py.VStr s => Some s
  | _ => None
  end.

Definition generate_citation_details (data : Py.Dict Py.value)
  : Py.Dict Py.value := [
  ("citation_number", Py.get data "citation_number");
  ("citation_date", Py.get data "citation_date");
  ("citation_time", Py.get data "citation_time");
  ("location", Py.get data "location");
  ("violation_type", Py.get data "violation_type");
  ("fine_amount", Py.get data "fine_amount");
  ("first_violation", WebApp.get_or data "first_violation" (Py.VBool false));
  ("unclear_signage", WebApp.get_or data "unclear_signage" (Py.VBool false));
  ("meter_malfunction", WebApp.get_or data "meter_malfunction" (Py.VBool false));
  ("emergency_situation", WebApp.get_or data "emergency_situation" (Py.VBool false));
  ("emergency_description", Py.get data "emergency_description");
  ("paid_for_parking", WebApp.get_or data "paid_for_parking" (Py.VBool false));
  ("paid_not_displayed", WebApp.get_or data "paid_not_displayed" (Py.VBool false));
  ("time_incorrect", WebApp.get_or data "time_incorrect" (Py.VBool false));
  ("has_disability_placard", WebApp.get_or data "has_disability_placard" (Py.VBool false));
  ("additional_info", Py.get data "additional_info")
].

(** The evidence dictionary the endpoint builds. *)
Definition build_evidence (request : Request) : Py.Dict Py.value :=
  let evidence :=
    fold_left
      (fun evidence item =>
         Py.setitem evidence
           ("has_" ++ Py.replace " "%char "_"%char (Py.lower item))
           (Py.VBool true))
      (evidence_items request) [] in
  (* Add evidence descriptions *)
  if Py.truthy (Py.get (fields request) "evidence_description")
  then Py.setitem evidence "general_description"
         (Py.get (fields request) "evidence_description")
  else evidence.

(** The body of the [try] block, once the API key is known to be set. *)
Definition generate_appeal_body (model : Model) (request : Request) : M Response :=
  let data := fields request in
  (* Build citation details *)
  let citation_details := generate_citation_details data in
  (* Get jurisdiction info *)
  match state_code_of (Py.get data "state") with
  | Py.Raise e => raise e
  | Py.Return state =>
      let location_info :=
        get_combined_info (city_name_of (Py.get data "city")) state in
      (* Get selected angles or analyze *)
      let selected_angles :=
        match selected_angles request with
        | [] => AppealStrategyAnalyzer.analyze_situation citation_details
        | _ :: _ => selected_angles request
        end in
      (* Build evidence dict *)
      let evidence := build_evidence request in
      (* Generate comprehensive appeal *)
      appeal_text <- generate_comprehensive_appeal model citation_details
                       {| Info.state := Info.state location_info;
                          Info.city := Info.city location_info;
                          Info.available_grounds := [] |}
                       selected_angles evidence ;;
      (* Get AI analysis if requested *)
      analysis_text <-
        (if Py.truthy (WebApp.get_or data "include_analysis" (Py.VBool true))
         then
           analysis <- analyze_citation_strength model citation_details
                         location_info evidence ;;
           ret (if Py.truthy (Py.get analysis "success")
                then Py.get analysis "analysis" else Py.VNone)
         else ret Py.VNone) ;;
      ret (Generated appeal_text analysis_text
             (map AppealStrategyAnalyzer.name (resolve_angles selected_angles)))
  end.

(** [generate_appeal], given the value of the API-key environment
    variable. *)
Definition generate_appeal (model : Model) (api_key : option string)
           (request : Request) : M Response :=
  try_except
    (match api_key with
     | Some key =>
         if Py.truthy (Py.VStr key)
         then generate_appeal_body model request
         else ret (Failed 400 "API key not configured")
     | None => ret (Failed 400 "API key not configured")
     end)
    (fun e => ret (Failed 500 (Py.exn_str e))).

End WebAppGenerate.

(** ** questionnaire.py: reading answers *)

Module QuestionnaireIO.

(** The console: the lines still to be read by [input], and what has
    been written, oldest first (a prompt as it is, a printed line with
    its newline). *)
Record Console : Type := {
  stdin : list string;
  stdout : list string
}.

(** [input] at the end of the input. *)
Definition EOFError : Py.exn := Py.Exception "EOFError" "EOF when reading a line".

(** The [while True] loop of [get_input], reading from [lines]. *)
Fixpoint get_input_loop (prompt : string) (required : bool) (default : Py.value)
         (lines : list string) (written : list string)
  : Py.result string * Console :=
  let written := (written ++ [prompt])%list in
  match lines with
  | [] => (Py.Raise EOFError, {| stdin := []; stdout := written |})
  | line :: rest =>
      let response := PyText.strip line in
      if Py.truthy (Py.VStr response)
      then (Py.Return response, {| stdin := rest; stdout := written |})
      else
        match default with
        | Py.VNone =>
            if negb required
            then (Py.Return "", {| stdin := rest; stdout := written |})
            else
              get_input_loop prompt required default rest
                (written ++
                 [("This field is required. Please provide a value." ++ nl)%string])%list
        | _ => (Py.Return (Py.str default), {| stdin := rest; stdout := written |})
        end
  end.

Definition get_input (prompt : string) (required : bool) (default : Py.value)
           (console : Console) : Py.result string * Console :=
  let prompt :=
    if Py.truthy default
    then prompt ++ " [" ++ Py.str default ++ "]: "
    else prompt ++ ": " in
  get_input_loop prompt required default (stdin console) (stdout console).




End QuestionnaireIO.

(** ** Properties *)

Import AppealStrategyAnalyzer ClassifierSpec EvaluatorSpec.

Lemma truthy_or (a b : Py.value) :
  Py.truthy (Py.or a b) = Py.truthy a || Py.truthy b.
Proof.
  unfold Py.or. destruct (Py.truthy a) eqn:Ha; simpl; [exact Ha | reflexivity].
Qed.

Lemma append_if_app (c : Py.value) (k : string) (l : list string) :
  append_if c k l = (l ++ (if Py.truthy c then [k] else []))%list.
Proof.
  unfold append_if. destruct (Py.truthy c); [reflexivity | now rewrite app_nil_r].
Qed.

Lemma satisfied_cons (f : string * list string -> bool) r rs :
  map fst (filter f (r :: rs)) =
  ((if f r then [fst r] else []) ++ map fst (filter f rs))%list.
Proof. simpl. destruct (f r); reflexivity. Qed.

(** The rule table and the chain of conditionals collect the same keys. *)
Lemma satisfied_angles_chain (facts : Py.Dict Py.value) :
  let get := Py.get facts in
  satisfied_angles facts =
  append_if (Py.or (get "time_incorrect") (get "timeline_conflicts"))
    "time_discrepancy"
   (append_if (Py.or (get "disability_related") (get "has_disability_placard"))
    "disability_accommodation"
   (append_if (get "first_violation") "first_time_leniency"
   (append_if (Py.or (get "unclear_zone") (get "zone_boundary_unclear"))
    "zone_confusion"
   (append_if (Py.or (get "paid_not_displayed") (get "receipt_not_visible"))
    "payment_display_issue"
   (append_if (get "emergency_situation") "emergency_circumstances"
   (append_if (Py.or (Py.or (get "meter_malfunction") (get "payment_failed"))
                     (get "paid_but_cited")) "meter_malfunction"
   (append_if (Py.or (Py.or (get "unclear_signage") (get "no_visible_signs"))
                     (get "conflicting_signs")) "signage_issues"
   (append_if (Py.or (Py.or (get "has_errors") (get "missing_info"))
                     (get "incorrect_vehicle_info")) "procedural_error"
      [])))))))).
Proof.
  intro get. subst get.
  rewrite !append_if_app, !truthy_or.
  unfold satisfied_angles, RULES. rewrite !satisfied_cons.
  unfold rule_satisfied, flag. cbn [existsb snd fst filter map].
  rewrite !orb_false_r, !app_nil_r, <- !app_assoc, <- !orb_assoc.
  reflexivity.
Qed.

Lemma analyze_situation_table (facts : Py.Dict Py.value) :
  analyze_situation facts =
  match satisfied_angles facts with
  | [] => FALLBACK
  | _ :: _ => satisfied_angles facts
  end.
Proof.
  rewrite (satisfied_angles_chain facts). reflexivity.
Qed.

(** *** The classifier *)

Lemma trigger_keys_of_rules : TRIGGER_KEYS = flat_map snd RULES.
Proof. reflexivity. Qed.

Lemma trigger_keys_count : length TRIGGER_KEYS = 19.
Proof. reflexivity. Qed.

Lemma priority_order_nodup : NoDup PRIORITY_ORDER.
Proof.
  change PRIORITY_ORDER with (nodup string_dec PRIORITY_ORDER).
  apply NoDup_nodup.
Qed.

Lemma fallback_nodup : NoDup FALLBACK.
Proof.
  change FALLBACK with (nodup string_dec FALLBACK).
  apply NoDup_nodup.
Qed.

Lemma fallback_in_priority_order : incl FALLBACK PRIORITY_ORDER.
Proof.
  intros k Hk. unfold FALLBACK in Hk. simpl in Hk.
  destruct Hk as [<- | [<- | [<- | []]]]; simpl; tauto.
Qed.

Lemma NoDup_map_filter {A B : Type} (g : A -> B) (f : A -> bool) (l : list A) :
  NoDup (map g l) -> NoDup (map g (filter f l)).
Proof.
  induction l as [| a l IH]; simpl; intro H; [constructor |].
  inversion H as [| ? ? Hnotin Hnodup]; subst.
  destruct (f a); simpl; [constructor |]; auto.
  intro Hin. apply Hnotin.
  apply in_map_iff in Hin. destruct Hin as [x [Hx Hin]].
  apply filter_In in Hin. apply in_map_iff. exists x. tauto.
Qed.

Lemma satisfied_angles_nodup (facts : Py.Dict Py.value) :
  NoDup (satisfied_angles facts).
Proof. apply NoDup_map_filter. exact priority_order_nodup. Qed.

Lemma satisfied_angles_in (facts : Py.Dict Py.value) (key : string) :
  In key (satisfied_angles facts) <->
  exists triggers, In (key, triggers) RULES /\
                   rule_satisfied facts (key, triggers) = true.
Proof.
  unfold satisfied_angles. rewrite in_map_iff. split.
  - intros [[k triggers] [Hk Hin]]. simpl in Hk. subst k.
    apply filter_In in Hin. exists triggers. exact Hin.
  - intros [triggers [Hin Hsat]]. exists (key, triggers).
    split; [reflexivity | apply filter_In; tauto].
Qed.

Lemma satisfied_angles_incl (facts : Py.Dict Py.value) :
  incl (satisfied_angles facts) PRIORITY_ORDER.
Proof.
  intros k Hk. unfold satisfied_angles in Hk. apply in_map_iff in Hk.
  destruct Hk as [r [<- Hr]]. apply filter_In in Hr.
  apply in_map. tauto.
Qed.

Lemma satisfied_angles_length (facts : Py.Dict Py.value) :
  length (satisfied_angles facts) <= 9.
Proof.
  unfold satisfied_angles. rewrite length_map.
  apply (filter_length_le (rule_satisfied facts) RULES).
Qed.

(** A truthy trigger flag satisfies the rule that lists it. *)
Lemma trigger_satisfies_rule (facts : Py.Dict Py.value) (k : string) :
  In k TRIGGER_KEYS -> flag facts k = true ->
  exists rule, In rule RULES /\ rule_satisfied facts rule = true.
Proof.
  rewrite trigger_keys_of_rules, in_flat_map.
  intros [rule [Hrule Hk]] Hflag. exists rule. split; [exact Hrule |].
  unfold rule_satisfied. apply existsb_exists. exists k. tauto.
Qed.

Lemma satisfied_angles_nonempty (facts : Py.Dict Py.value) :
  (exists k, In k TRIGGER_KEYS /\ flag facts k = true) ->
  satisfied_angles facts <> [].
Proof.
  intros [k [Hk Hflag]] Hnil.
  destruct (trigger_satisfies_rule facts k Hk Hflag) as [[key triggers] [Hin Hsat]].
  assert (H : In key (satisfied_angles facts))
    by (apply satisfied_angles_in; exists triggers; tauto).
  rewrite Hnil in H. exact H.
Qed.

Lemma filter_none {A : Type} (f : A -> bool) (l : list A) :
  (forall x, In x l -> f x = false) -> filter f l = [].
Proof.
  induction l as [| a l IH]; simpl; intro H; [reflexivity |].
  rewrite (H a) by tauto. apply IH. intros x Hx. apply H. tauto.
Qed.

Lemma satisfied_angles_empty (facts : Py.Dict Py.value) :
  (forall k, In k TRIGGER_KEYS -> flag facts k = false) ->
  satisfied_angles facts = [].
Proof.
  intro Hnone. unfold satisfied_angles.
  rewrite filter_none; [reflexivity |].
  intros rule Hrule. unfold rule_satisfied.
  destruct (existsb (flag facts) (snd rule)) eqn:E; [| reflexivity].
  apply existsb_exists in E. destruct E as [k [Hk Hflag]].
  rewrite Hnone in Hflag; [discriminate |].
  rewrite trigger_keys_of_rules. apply in_flat_map. exists rule. tauto.
Qed.

Lemma analyze_situation_nonempty (facts : Py.Dict Py.value) :
  analyze_situation facts <> [].
Proof.
  rewrite analyze_situation_table.
  destruct (satisfied_angles facts); discriminate.
Qed.

(** C2: when at least one recognised trigger flag is truthy, the
    classifier returns exactly the angle keys whose rule is satisfied, in
    the priority order of the rule table; the result is not empty and has
    no duplicates.  The facts unclear_signage, first_violation and
    meter_malfunction give signage_issues, meter_malfunction,
    first_time_leniency, in that order. *)
Theorem analyze_situation_triggered (facts : Py.Dict Py.value) :
  (exists k, In k TRIGGER_KEYS /\ Py.truthy (Py.get facts k) = true) ->
  analyze_situation facts = map fst (filter (rule_satisfied facts) RULES)
  /\ analyze_situation facts <> []
  /\ NoDup (analyze_situation facts)
  /\ (forall key, In key (analyze_situation facts) <->
        exists triggers, In (key, triggers) RULES /\
          existsb (fun k => Py.truthy (Py.get facts k)) triggers = true)
  /\ analyze_situation [("unclear_signage", Py.VBool true);
                        ("first_violation", Py.VBool true);
                        ("meter_malfunction", Py.VBool true)]
     = ["signage_issues"; "meter_malfunction"; "first_time_leniency"].
Proof.
  intro Htrigger.
  assert (E : analyze_situation facts = satisfied_angles facts).
  { rewrite analyze_situation_table.
    pose proof (satisfied_angles_nonempty facts Htrigger) as Hne.
    destruct (satisfied_angles facts); [contradiction | reflexivity]. }
  rewrite E.
  split; [reflexivity |].
  split; [apply satisfied_angles_nonempty; exact Htrigger |].
  split; [apply satisfied_angles_nodup |].
  split; [exact (satisfied_angles_in facts) | reflexivity].
Qed.

Lemma analyze_situation_triggered_witness :
  let facts := [("citation_number", Py.VStr "SF-20417");
                ("paid_but_cited", Py.VStr "yes");
                ("first_violation", Py.VBool false);
                ("time_incorrect", Py.VInt 1)] in
  (exists k, In k TRIGGER_KEYS /\ Py.truthy (Py.get facts k) = true)
  /\ analyze_situation facts = ["meter_malfunction"; "time_discrepancy"].
Proof.
  intro facts.
  assert (H : exists k, In k TRIGGER_KEYS /\ Py.truthy (Py.get facts k) = true).
  { exists "paid_but_cited". split; [simpl; tauto | reflexivity]. }
  split; [exact H |].
  rewrite (proj1 (analyze_situation_triggered facts H)). reflexivity.
Defined.

(** C5: when no recognised trigger flag is truthy (the empty mapping
    included), the classifier returns the fixed fallback procedural_error,
    signage_issues, first_time_leniency; so it never returns an empty
    sequence. *)
Theorem analyze_situation_fallback (facts : Py.Dict Py.value) :
  (forall k, In k TRIGGER_KEYS -> Py.truthy (Py.get facts k) = false) ->
  analyze_situation facts
  = ["procedural_error"; "signage_issues"; "first_time_leniency"]
  /\ analyze_situation [] = analyze_situation facts
  /\ (forall any_facts, analyze_situation any_facts <> []).
Proof.
  intro Hnone.
  assert (E : analyze_situation facts = FALLBACK).
  { rewrite analyze_situation_table, (satisfied_angles_empty facts Hnone).
    reflexivity. }
  rewrite E. repeat split. exact analyze_situation_nonempty.
Qed.

Lemma analyze_situation_fallback_witness :
  let facts := [("citation_number", Py.VStr "SF-20417");
                ("first_violation", Py.VBool false);
                ("unclear_signage", Py.VStr "");
                ("paid_for_parking", Py.VBool true)] in
  (forall k, In k TRIGGER_KEYS -> Py.truthy (Py.get facts k) = false)
  /\ analyze_situation facts
     = ["procedural_error"; "signage_issues"; "first_time_leniency"].
Proof.
  intro facts.
  assert (H : forall k, In k TRIGGER_KEYS -> Py.truthy (Py.get facts k) = false).
  { intros k Hk. simpl in Hk.
    repeat (destruct Hk as [<- | Hk]; [reflexivity |]). contradiction. }
  split; [exact H | exact (proj1 (analyze_situation_fallback facts H))].
Defined.

Lemma priority_order_in_catalog (key : string) :
  In key PRIORITY_ORDER -> get_angle key <> None.
Proof.
  intro H. simpl in H.
  repeat (destruct H as [<- | H]; [discriminate |]). contradiction.
Qed.

(** C9: every key the classifier returns is a key of the angle catalog,
    so looking it up never gives absent; the result has at most nine keys
    and none of them twice. *)
Theorem analyze_situation_in_catalog (facts : Py.Dict Py.value) :
  (forall key, In key (analyze_situation facts) -> get_angle key <> None)
  /\ length (analyze_situation facts) <= 9
  /\ NoDup (analyze_situation facts).
Proof.
  rewrite analyze_situation_table.
  pose proof (satisfied_angles_incl facts) as Hincl.
  pose proof (satisfied_angles_length facts) as Hlen.
  pose proof (satisfied_angles_nodup facts) as Hnodup.
  destruct (satisfied_angles facts) as [| k l].
  - repeat split.
    + intros key Hkey. apply priority_order_in_catalog.
      apply fallback_in_priority_order. exact Hkey.
    + simpl. lia.
    + exact fallback_nodup.
  - repeat split; try assumption.
    intros key Hkey. apply priority_order_in_catalog. apply Hincl. exact Hkey.
Qed.

Lemma existsb_agree {A : Type} (f g : A -> bool) (l : list A) :
  (forall x, In x l -> f x = g x) -> existsb f l = existsb g l.
Proof.
  induction l as [| a l IH]; simpl; intro H; [reflexivity |].
  rewrite (H a) by tauto. rewrite IH by (intros; apply H; tauto). reflexivity.
Qed.

(** C10: the classifier reads only the truthiness of the nineteen trigger
    keys: two fact mappings that agree on it get the same result, whatever
    other keys and values they hold. *)
Theorem analyze_situation_reads_triggers_only (facts1 facts2 : Py.Dict Py.value) :
  (forall k, In k TRIGGER_KEYS ->
     Py.truthy (Py.get facts1 k) = Py.truthy (Py.get facts2 k)) ->
  analyze_situation facts1 = analyze_situation facts2.
Proof.
  intro Hagree.
  assert (E : satisfied_angles facts1 = satisfied_angles facts2).
  { unfold satisfied_angles. f_equal. apply filter_ext_in.
    intros rule Hrule. unfold rule_satisfied. apply existsb_agree.
    intros k Hk. apply Hagree.
    rewrite trigger_keys_of_rules. apply in_flat_map. exists rule. tauto. }
  rewrite !analyze_situation_table, E. reflexivity.
Qed.

Lemma analyze_situation_reads_triggers_only_witness :
  let facts1 := [("first_violation", Py.VBool true);
                 ("citation_number", Py.VStr "SF-20417");
                 ("has_errors", Py.VBool false)] in
  let facts2 := [("fine_amount", Py.VInt 85);
                 ("first_violation", Py.VStr "yes");
                 ("paid_for_parking", Py.VBool true)] in
  (forall k, In k TRIGGER_KEYS ->
     Py.truthy (Py.get facts1 k) = Py.truthy (Py.get facts2 k))
  /\ analyze_situation facts1 = analyze_situation facts2.
Proof.
  intros facts1 facts2.
  assert (H : forall k, In k TRIGGER_KEYS ->
                Py.truthy (Py.get facts1 k) = Py.truthy (Py.get facts2 k)).
  { intros k Hk. simpl in Hk.
    repeat (destruct Hk as [<- | Hk]; [reflexivity |]). contradiction. }
  split; [exact H | exact (analyze_situation_reads_triggers_only facts1 facts2 H)].
Defined.

(** *** The evidence evaluator *)

Lemma lookup_in {V : Type} (d : Py.Dict V) (k : string) (v : V) :
  Py.lookup d k = Some v -> In (k, v) d.
Proof.
  induction d as [| [k' v'] d IH]; simpl; [discriminate |].
  destruct (String.eqb k' k) eqn:E.
  - apply String.eqb_eq in E. intro H. inversion H. subst. left. reflexivity.
  - intro H. right. apply IH. exact H.
Qed.

Lemma catalog_required_evidence_small (angle_key : string) (angle : AppealAngle) :
  get_angle angle_key = Some angle -> length (required_evidence angle) <= 5.
Proof.
  intro H. apply lookup_in in H. simpl in H.
  repeat (destruct H as [H | H]; [inversion H; subst; simpl; lia |]).
  contradiction.
Qed.

Lemma count_evidence_from (required : list string) (evidence : Py.Dict Py.value)
      (start : nat) :
  fold_left
    (fun evidence_count evidence_item =>
       if Py.truthy (Py.get evidence (evidence_key evidence_item))
       then evidence_count + 1 else evidence_count)
    required start
  = start + length (filter (fun item => Py.truthy (Py.get evidence (evidence_key item)))
                           required).
Proof.
  revert start. induction required as [| item required IH]; intro start; simpl.
  - lia.
  - rewrite IH. destruct (Py.truthy (Py.get evidence (evidence_key item))); simpl; lia.
Qed.

Lemma count_evidence_matches (angle : AppealAngle) (evidence : Py.Dict Py.value) :
  count_evidence (required_evidence angle) evidence = matches angle evidence.
Proof. unfold count_evidence, matches. now rewrite count_evidence_from. Qed.

Lemma matches_le (angle : AppealAngle) (evidence : Py.Dict Py.value) :
  matches angle evidence <= length (required_evidence angle).
Proof. unfold matches. apply filter_length_le. Qed.

Lemma bands_agree_100 : bands_agree_upto 100 = true.
Proof. vm_compute. reflexivity. Qed.

Lemma bands_agree_upto_sound (bound m count : nat) :
  bands_agree_upto bound = true -> m <= count -> count <= bound ->
  strength_of_ratio (evidence_ratio m count) = band (ratio m count).
Proof.
  unfold bands_agree_upto. intros H Hm Hcount.
  rewrite forallb_forall in H.
  specialize (H count). rewrite forallb_forall in H.
  apply String.eqb_eq. apply H; apply in_seq; lia.
Qed.

(** Binary64 division and comparison classify a ratio of small counts as
    exact arithmetic does. *)
Lemma strength_of_ratio_exact (m count : nat) :
  m <= count -> count <= 100 ->
  strength_of_ratio (evidence_ratio m count) = band (ratio m count).
Proof. exact (bands_agree_upto_sound 100 m count bands_agree_100). Qed.

Lemma get_angle_strength_exact (angle_key : string) (angle : AppealAngle)
      (evidence : Py.Dict Py.value) :
  get_angle angle_key = Some angle ->
  get_angle_strength angle_key evidence
  = band (ratio (matches angle evidence) (length (required_evidence angle))).
Proof.
  intro H. unfold get_angle_strength. rewrite H.
  rewrite count_evidence_matches. apply strength_of_ratio_exact.
  - apply matches_le.
  - pose proof (catalog_required_evidence_small _ _ H). lia.
Qed.

Lemma band_strong (r : Q) : band r = "strong" <-> (7 # 10 <= r)%Q.
Proof.
  unfold band. rewrite <- Qle_bool_iff.
  destruct (Qle_bool (7 # 10) r); [tauto |].
  destruct (Qle_bool (4 # 10) r); split; discriminate.
Qed.


Lemma band_weak (r : Q) : band r = "weak" <-> (r < 4 # 10)%Q.
Proof.
  unfold band.
  destruct (Qle_bool (7 # 10) r) eqn:E7.
  - apply Qle_bool_iff in E7. split; [discriminate |].
    intro Hlt. exfalso. apply (Qlt_not_le _ _ Hlt).
    apply Qle_trans with (7 # 10)%Q; [| exact E7]. discriminate.
  - destruct (Qle_bool (4 # 10) r) eqn:E4.
    + apply Qle_bool_iff in E4. split; [discriminate |].
      intro Hlt. exfalso. exact (Qlt_not_le _ _ Hlt E4).
    + split; [| reflexivity]. intros _.
      apply Qnot_le_lt. intro Hle. apply Qle_bool_iff in Hle. congruence.
Qed.


(** Assigning a truthy value to a key never makes another lookup falsy. *)
Lemma lookup_setitem {V : Type} (d : Py.Dict V) (k k' : string) (v : V) :
  Py.lookup (Py.setitem d k v) k' =
  if String.eqb k k' then Some v else Py.lookup d k'.
Proof.
  induction d as [| [k0 v0] d IH]; simpl.
  - reflexivity.
  - destruct (String.eqb k0 k) eqn:E0; simpl.
    + apply String.eqb_eq in E0. subst k0.
      destruct (String.eqb k k'); reflexivity.
    + rewrite IH. destruct (String.eqb k0 k') eqn:E1; [| reflexivity].
      apply String.eqb_eq in E1. subst k0. rewrite String.eqb_sym, E0. reflexivity.
Qed.

Lemma truthy_get_setitem (evidence : Py.Dict Py.value) (key k' : string)
      (v : Py.value) :
  Py.truthy v = true ->
  Py.truthy (Py.get evidence k') = true ->
  Py.truthy (Py.get (Py.setitem evidence key v) k') = true.
Proof.
  intros Hv H. unfold Py.get in *. rewrite lookup_setitem.
  destruct (String.eqb key k'); assumption.
Qed.

Lemma filter_length_mono {A : Type} (f g : A -> bool) (l : list A) :
  (forall x, f x = true -> g x = true) ->
  length (filter f l) <= length (filter g l).
Proof.
  intro H. induction l as [| a l IH]; simpl; [lia |].
  destruct (f a) eqn:Ef.
  - rewrite (H a Ef). simpl. lia.
  - destruct (g a); simpl; lia.
Qed.

Lemma ratio_mono (m m' count : nat) :
  m <= m' -> (ratio m count <= ratio m' count)%Q.
Proof.
  intro H. destruct count as [| count]; simpl.
  - apply Qle_refl.
  - unfold Qle. simpl. apply Z.mul_le_mono_nonneg_r; lia.
Qed.

Lemma rank_weak_le (strength : string) : rank "weak" <= rank strength.
Proof. change (rank "weak") with 0. lia. Qed.

Lemma rank_band_mono (r r' : Q) :
  (r <= r')%Q -> rank (band r) <= rank (band r').
Proof.
  intro H. unfold band.
  destruct (Qle_bool (7 # 10) r) eqn:E7.
  - apply Qle_bool_iff in E7.
    assert (E7' : Qle_bool (7 # 10) r' = true)
      by (apply Qle_bool_iff; apply Qle_trans with r; assumption).
    rewrite E7'. apply Nat.le_refl.
  - destruct (Qle_bool (4 # 10) r) eqn:E4.
    + apply Qle_bool_iff in E4.
      assert (E4' : Qle_bool (4 # 10) r' = true)
        by (apply Qle_bool_iff; apply Qle_trans with r; assumption).
      destruct (Qle_bool (7 # 10) r'); [vm_compute; lia |].
      rewrite E4'. apply Nat.le_refl.
    + apply rank_weak_le.
Qed.

(** C6: adding a truthy evidence entry, in particular one whose key is
    the derived key of a required item, never moves the band down in the
    order weak < moderate < strong. *)
Theorem get_angle_strength_monotone (angle_key key : string) (v : Py.value)
        (evidence : Py.Dict Py.value) :
  Py.truthy v = true ->
  rank (get_angle_strength angle_key evidence)
  <= rank (get_angle_strength angle_key (Py.setitem evidence key v)).
Proof.
  intro Hv. destruct (get_angle angle_key) as [angle |] eqn:H.
  - rewrite !(get_angle_strength_exact _ _ _ H).
    apply rank_band_mono, ratio_mono. unfold matches.
    apply filter_length_mono. intros item. apply truthy_get_setitem. exact Hv.
  - unfold get_angle_strength. rewrite H. apply Nat.le_refl.
Qed.

Lemma get_angle_strength_monotone_witness :
  let evidence := [("photos_showing_parking_spot_and_nearby_signage", Py.VBool true);
                   ("photos_of_any_obstructions_or_damaged_signs", Py.VBool true)] in
  let key := "photos_showing_perspective_from_driver's_position" in
  Py.truthy (Py.VBool true) = true
  /\ get_angle_strength "signage_issues" evidence = "moderate"
  /\ get_angle_strength "signage_issues" (Py.setitem evidence key (Py.VBool true))
     = "strong"
  /\ rank (get_angle_strength "signage_issues" evidence)
     <= rank (get_angle_strength "signage_issues"
                                 (Py.setitem evidence key (Py.VBool true))).
Proof.
  intros evidence key.
  split; [reflexivity |]. split; [reflexivity |]. split; [reflexivity |].
  apply (get_angle_strength_monotone "signage_issues" key (Py.VBool true) evidence).
  reflexivity.
Defined.

(** *** The jurisdiction catalog *)

Import RegulationDatabase.

Lemma upper_char_lower_char (c : ascii) :
  Py.upper_char (Py.lower_char c) = Py.upper_char c.
Proof. destruct c as [[] [] [] [] [] [] [] []]; reflexivity. Qed.

Lemma upper_lower (s : string) : Py.upper (Py.lower s) = Py.upper s.
Proof.
  unfold Py.upper, Py.lower.
  induction s as [| c s IH]; simpl; [reflexivity |].
  now rewrite upper_char_lower_char, IH.
Qed.

(** Codes that differ only in letter case resolve to the same record. *)
Lemma get_state_info_case_insensitive (code1 code2 : string) :
  Py.lower code1 = Py.lower code2 -> get_state_info code1 = get_state_info code2.
Proof.
  intro H. unfold get_state_info.
  rewrite <- (upper_lower code1), <- (upper_lower code2), H. reflexivity.
Qed.

Lemma get_combined_info_state (city_name : option string) (state_code : string) :
  Info.state (get_combined_info city_name state_code) = get_state_info state_code.
Proof.
  unfold get_combined_info. destruct city_name as [city_name |]; [| reflexivity].
  destruct (Py.truthy (Py.VStr city_name)); [| reflexivity].
  destruct (get_city_info city_name) as [city_info |]; [| reflexivity].
  destruct (String.eqb (City.state city_info) (Py.upper state_code)); reflexivity.
Qed.

Lemma get_combined_info_grounds (city_name : option string) (state_code : string) :
  Info.available_grounds (get_combined_info city_name state_code)
  = COMMON_APPEAL_GROUNDS.
Proof.
  unfold get_combined_info. destruct city_name as [city_name |]; [| reflexivity].
  destruct (Py.truthy (Py.VStr city_name)); [| reflexivity].
  destruct (get_city_info city_name) as [city_info |]; [| reflexivity].
  destruct (String.eqb (City.state city_info) (Py.upper state_code)); reflexivity.
Qed.

Lemma get_combined_info_city (city_name : option string) (state_code : string) :
  Info.city (get_combined_info city_name state_code)
  = match city_name with
    | Some given_name =>
        match Py.lookup CITY_REGULATIONS given_name with
        | Some record =>
            if String.eqb (City.state record) (Py.upper state_code)
            then Some record else None
        | None => None
        end
    | None => None
    end.
Proof.
  unfold get_combined_info. destruct city_name as [city_name |]; [| reflexivity].
  destruct (Py.truthy (Py.VStr city_name)) eqn:Htruthy.
  - unfold get_city_info.
    destruct (Py.lookup CITY_REGULATIONS city_name) as [city_info |]; [| reflexivity].
    destruct (String.eqb (City.state city_info) (Py.upper state_code)); reflexivity.
  - simpl in Htruthy. apply negb_false_iff, String.eqb_eq in Htruthy.
    subst city_name. reflexivity.
Qed.

(** C4: the combined lookup always carries the state record of the
    upper-cased code (absent when the code is unknown, and the same for
    codes that differ only in case) and the fixed list of common grounds;
    the city is filled in only when a record exists under the exact city
    name and its state code equals the upper-cased input code, and is
    absent otherwise.  San Francisco with CA has a city, San Francisco with
    NY has none. *)
Theorem get_combined_info_fields (city_name : option string) (state_code : string) :
  let info := get_combined_info city_name state_code in
  Info.state info = Py.lookup STATE_REGULATIONS (Py.upper state_code)
  /\ (forall other_code, Py.lower other_code = Py.lower state_code ->
        Info.state (get_combined_info city_name other_code) = Info.state info)
  /\ Info.available_grounds info = COMMON_APPEAL_GROUNDS
  /\ Info.city info
     = match city_name with
       | Some given_name =>
           match Py.lookup CITY_REGULATIONS given_name with
           | Some record =>
               if String.eqb (City.state record) (Py.upper state_code)
               then Some record else None
           | None => None
           end
       | None => None
       end
  /\ Info.city (get_combined_info (Some "San Francisco") "CA")
     = Py.lookup CITY_REGULATIONS "San Francisco"
  /\ Py.lookup CITY_REGULATIONS "San Francisco" <> None
  /\ Info.city (get_combined_info (Some "San Francisco") "NY") = None
  /\ Info.state (get_combined_info (Some "San Francisco") "ZZ") = None.
Proof.
  cbv zeta. rewrite !get_combined_info_state.
  split; [reflexivity |].
  split; [intros other_code H; rewrite get_combined_info_state;
          apply get_state_info_case_insensitive; exact H |].
  split; [apply get_combined_info_grounds |].
  split; [apply get_combined_info_city |].
  repeat split. discriminate.
Qed.

(** *** Strings *)

Lemma str_app_assoc (a b c : string) : (a ++ b) ++ c = a ++ b ++ c.
Proof. induction a as [| x a IH]; simpl; [reflexivity | now rewrite IH]. Qed.

Lemma str_app_nil_r (a : string) : a ++ "" = a.
Proof. induction a as [| x a IH]; simpl; [reflexivity | now rewrite IH]. Qed.

Lemma starts_with_prefix (needle hay : string) :
  Py.starts_with needle hay = true <-> exists after, hay = needle ++ after.
Proof.
  revert hay. induction needle as [| a needle IH]; intro hay; simpl.
  - split; [intros _; exists hay; reflexivity | reflexivity].
  - destruct hay as [| b hay].
    + split; [discriminate | intros [after H]; discriminate].
    + rewrite andb_true_iff, IH. split.
      * intros [Hab [after ->]]. apply Ascii.eqb_eq in Hab. subst b.
        exists after. reflexivity.
      * intros [after H]. inversion H. subst.
        split; [apply Ascii.eqb_refl | exists after; reflexivity].
Qed.

(** The executable test [contains] decides [occurs_in]. *)
Lemma contains_occurs_in (needle hay : string) :
  Py.contains needle hay = true <-> Py.occurs_in needle hay.
Proof.
  unfold Py.occurs_in. induction hay as [| b hay IH].
  - simpl. rewrite orb_false_r, starts_with_prefix. split.
    + intros [after H]. exists "", after. exact H.
    + intros [[| x before] [after H]]; [exists after; exact H | discriminate].
  - cbn [Py.contains]. rewrite orb_true_iff, starts_with_prefix, IH. split.
    + intros [[after H] | [before [after H]]].
      * exists "", after. exact H.
      * exists (String b before), after. simpl. now rewrite H.
    + intros [[| x before] [after H]].
      * left. exists after. exact H.
      * right. inversion H. subst. exists before, after. reflexivity.
Qed.

Lemma occurs_in_refl (s : string) : Py.occurs_in s s.
Proof. exists "", "". simpl. now rewrite str_app_nil_r. Qed.

Lemma occurs_in_app_l (x a b : string) :
  Py.occurs_in x a -> Py.occurs_in x (a ++ b).
Proof.
  intros [before [after ->]]. exists before, (after ++ b).
  now rewrite !str_app_assoc.
Qed.

Lemma occurs_in_app_r (x a b : string) :
  Py.occurs_in x b -> Py.occurs_in x (a ++ b).
Proof.
  intros [before [after ->]]. exists (a ++ before), after.
  now rewrite !str_app_assoc.
Qed.

Lemma occurs_in_trans (x y z : string) :
  Py.occurs_in x y -> Py.occurs_in y z -> Py.occurs_in x z.
Proof.
  intros [b1 [a1 ->]] [b2 [a2 ->]]. exists (b2 ++ b1), (a1 ++ a2).
  now rewrite !str_app_assoc.
Qed.

(** *** The request assembler *)

Import AppealGenerator BatchSpec.

Lemma add_entries_app (text : string) (data : Py.Dict Py.value) :
  add_entries text data = text ++ add_entries "" data.
Proof.
  unfold add_entries. revert text.
  induction data as [| [key value] data IH]; intro text; simpl.
  - now rewrite str_app_nil_r.
  - destruct (Py.truthy value).
    + rewrite (IH (text ++ entry_line key value)), (IH (entry_line key value)).
      apply str_app_assoc.
    + apply IH.
Qed.

Lemma add_bullets_app (bullet text : string) (items : list string) :
  add_bullets bullet text items = text ++ add_bullets bullet "" items.
Proof.
  unfold add_bullets. revert text.
  induction items as [| item items IH]; intro text; simpl.
  - now rewrite str_app_nil_r.
  - rewrite (IH (text ++ bullet ++ item ++ nl)), (IH (bullet ++ item ++ nl)).
    apply str_app_assoc.
Qed.

Lemma occurs_in_add_entries (x text : string) (data : Py.Dict Py.value) :
  Py.occurs_in x text -> Py.occurs_in x (add_entries text data).
Proof. intro H. rewrite add_entries_app. now apply occurs_in_app_l. Qed.

Lemma occurs_in_add_bullets (x bullet text : string) (items : list string) :
  Py.occurs_in x text -> Py.occurs_in x (add_bullets bullet text items).
Proof. intro H. rewrite add_bullets_app. now apply occurs_in_app_l. Qed.

(** Every truthy entry of a dictionary is rendered as its line. *)
Lemma entry_in_add_entries (text key : string) (value : Py.value)
      (data : Py.Dict Py.value) :
  In (key, value) data -> Py.truthy value = true ->
  Py.occurs_in (entry_line key value) (add_entries text data).
Proof.
  intros Hin Htruthy. revert text.
  induction data as [| [k v] data IH]; intro text; [contradiction |].
  destruct Hin as [Heq | Hin].
  - inversion Heq. subst k v. unfold add_entries. simpl. rewrite Htruthy.
    apply (occurs_in_add_entries _ _ data).
    apply occurs_in_app_r, occurs_in_refl.
  - unfold add_entries. simpl. destruct (Py.truthy v); apply (IH Hin).
Qed.

Lemma item_in_add_bullets (bullet text item : string) (items : list string) :
  In item items -> Py.occurs_in item (add_bullets bullet text items).
Proof.
  intro Hin. revert text.
  induction items as [| i items IH]; intro text; [contradiction |].
  destruct Hin as [-> | Hin].
  - unfold add_bullets. simpl. apply (occurs_in_add_bullets _ _ _ items).
    apply occurs_in_app_r, occurs_in_app_r, occurs_in_app_l, occurs_in_refl.
  - unfold add_bullets. simpl. apply (IH Hin).
Qed.

Lemma value_in_entry_line (key : string) (value : Py.value) :
  Py.occurs_in (Py.str value) (entry_line key value).
Proof.
  unfold entry_line.
  do 3 apply occurs_in_app_r. apply occurs_in_app_l, occurs_in_refl.
Qed.


Section Prompt.

Variables (citation_details evidence : Py.Dict Py.value).
Variable location_info : Info.t.
Variable angle : AppealAngle.






End Prompt.

(** *** Calls to the generator *)

Lemma single_angle_run (model : Model) (citation_details : Py.Dict Py.value)
      (location_info : Info.t) (angle : AppealAngle)
      (evidence : Py.Dict Py.value) (log : Log) :
  let prompt := _build_appeal_prompt citation_details location_info angle evidence in
  _generate_single_angle_appeal model citation_details location_info angle evidence log
  = (Py.Return (appeal_text model (length log) prompt), (log ++ [prompt])%list).
Proof.
  cbv zeta. unfold _generate_single_angle_appeal, try_except, generate_content,
    appeal_text, ret.
  destruct (model (length log) _); reflexivity.
Qed.

Lemma multi_angle_loop_run (model : Model) (citation_details : Py.Dict Py.value)
      (location_info : Info.t) (evidence : Py.Dict Py.value)
      (selected_angles : list string) :
  forall (appeals : Py.Dict string) (log : Log),
    let angles := resolve_angles selected_angles in
    let requests :=
      map (fun angle =>
             _build_appeal_prompt citation_details location_info angle evidence)
          angles in
    multi_angle_loop model citation_details location_info selected_angles
                     evidence appeals log
    = (Py.Return
         (assign_all appeals
            (combine (map name angles)
                     (appeal_texts model (length log) requests))),
       (log ++ requests)%list).
Proof.
  induction selected_angles as [| angle_key rest IH]; intros appeals log.
  - cbv zeta. simpl. unfold ret, assign_all. simpl. now rewrite app_nil_r.
  - cbv zeta. cbn [multi_angle_loop resolve_angles flat_map].
    fold (resolve_angles rest).
    destruct (get_angle angle_key) as [angle |].
    + unfold bind at 1. rewrite single_angle_run. rewrite IH.
      rewrite length_app, Nat.add_1_r. cbn [length app map combine appeal_texts].
      unfold assign_all. cbn [fold_left fst snd]. now rewrite <- app_assoc.
    + apply IH.
Qed.






Lemma occurs_in_contains (needle hay : string) :
  Py.occurs_in needle hay -> Py.contains needle hay = true.
Proof. apply contains_occurs_in. Qed.




(** *** Failures of the generator *)





(** The comprehensive prompt is assembled whenever the state record is
    present. *)
Lemma comprehensive_prompt_with_state (citation_details evidence : Py.Dict Py.value)
      (location_info : Info.t) (all_angles : list string) (state_info : State.t) :
  Info.state location_info = Some state_info ->
  exists prompt,
    comprehensive_prompt citation_details location_info all_angles evidence
    = Py.Return prompt.
Proof.
  intro H. unfold comprehensive_prompt. rewrite H. eexists. reflexivity.
Qed.

(** Without a state record the assembly raises instead. *)
Lemma comprehensive_prompt_without_state
      (citation_details evidence : Py.Dict Py.value)
      (location_info : Info.t) (all_angles : list string) :
  Info.state location_info = None ->
  comprehensive_prompt citation_details location_info all_angles evidence
  = Py.Raise Py.AttributeError_None_get.
Proof. intro H. unfold comprehensive_prompt. rewrite H. reflexivity. Qed.




(** *** Totality *)

(** C8: the comprehensive request is not assembled for a jurisdiction
    whose state is unknown: the lookup gives an absent state record, and
    reading the state's name from it raises AttributeError before any
    request is sent. *)
Theorem generate_comprehensive_appeal_unknown_state
        (model : Model) (citation_details evidence : Py.Dict Py.value)
        (city_name : option string) (all_angles : list string) (log : Log) :
  let location_info := get_combined_info city_name "WA" in
  Info.state location_info = None
  /\ comprehensive_prompt citation_details location_info all_angles evidence
     = Py.Raise Py.AttributeError_None_get
  /\ generate_comprehensive_appeal model citation_details location_info
                                   all_angles evidence log
     = (Py.Raise Py.AttributeError_None_get, log).
Proof.
  cbv zeta.
  assert (Hstate : Info.state (get_combined_info city_name "WA") = None)
    by (rewrite get_combined_info_state; reflexivity).
  assert (Hprompt : comprehensive_prompt citation_details
                      (get_combined_info city_name "WA") all_angles evidence
                    = Py.Raise Py.AttributeError_None_get)
    by (apply comprehensive_prompt_without_state; exact Hstate).
  split; [exact Hstate |]. split; [exact Hprompt |].
  unfold generate_comprehensive_appeal. rewrite Hprompt. reflexivity.
Qed.

(** The single-angle request, by contrast, is assembled for every
    jurisdiction, and the single-angle and batch operations always return. *)
Lemma single_angle_and_batch_always_return
      (model : Model) (citation_details evidence : Py.Dict Py.value)
      (location_info : Info.t) (log : Log) :
  (forall angle, exists text log',
      _generate_single_angle_appeal model citation_details location_info angle
                                    evidence log = (Py.Return text, log'))
  /\ (forall selected_angles, exists appeals log',
        generate_multi_angle_appeal model citation_details location_info
                                    selected_angles evidence log
        = (Py.Return appeals, log')).
Proof.
  split.
  - intro angle. eexists. eexists. apply single_angle_run.
  - intro selected_angles. eexists. eexists.
    unfold generate_multi_angle_appeal. apply multi_angle_loop_run.
Qed.

(** ** Further properties of the catalogs *)

Lemma lookup_none_iff {V : Type} (d : Py.Dict V) (k : string) :
  Py.lookup d k = None <-> ~ In k (map fst d).
Proof.
  induction d as [| [k' v'] d IH]; simpl.
  - tauto.
  - destruct (String.eqb k' k) eqn:E.
    + apply String.eqb_eq in E. split; [discriminate | tauto].
    + apply String.eqb_neq in E. rewrite IH. tauto.
Qed.

Lemma lookup_of_in {V : Type} (d : Py.Dict V) (k : string) (v : V) :
  NoDup (map fst d) -> In (k, v) d -> Py.lookup d k = Some v.
Proof.
  induction d as [| [k' v'] d IH]; simpl; intros Hnd Hin; [contradiction |].
  inversion Hnd as [| ? ? Hnotin Hnd']; subst.
  destruct Hin as [Heq | Hin].
  - inversion Heq. subst. now rewrite String.eqb_refl.
  - destruct (String.eqb k' k) eqn:E; [| auto].
    apply String.eqb_eq in E. subst k'. exfalso. apply Hnotin.
    apply in_map_iff. exists (k, v). tauto.
Qed.

Lemma state_codes_nodup : NoDup (map fst STATE_REGULATIONS).
Proof.
  change (map fst STATE_REGULATIONS)
    with (nodup string_dec (map fst STATE_REGULATIONS)).
  apply NoDup_nodup.
Qed.

Lemma city_names_nodup : NoDup (map fst CITY_REGULATIONS).
Proof.
  change (map fst CITY_REGULATIONS)
    with (nodup string_dec (map fst CITY_REGULATIONS)).
  apply NoDup_nodup.
Qed.

Lemma angle_keys_nodup : NoDup (map fst APPEAL_ANGLES).
Proof.
  change (map fst APPEAL_ANGLES) with (nodup string_dec (map fst APPEAL_ANGLES)).
  apply NoDup_nodup.
Qed.

(** X1: a state code resolves to a record exactly when its upper-cased
    form is one of the codes [get_all_states] lists. *)
Theorem get_state_info_iff_listed (state_code : string) :
  get_state_info state_code <> None <-> In (Py.upper state_code) get_all_states.
Proof.
  unfold get_state_info, get_all_states.
  pose proof (lookup_none_iff STATE_REGULATIONS (Py.upper state_code)) as H.
  destruct (Py.lookup STATE_REGULATIONS (Py.upper state_code)) as [record |].
  - split; [intros _ | discriminate].
    destruct (in_dec string_dec (Py.upper state_code) (map fst STATE_REGULATIONS))
      as [Hin | Hnotin]; [exact Hin |].
    apply H in Hnotin. discriminate.
  - split; [congruence |]. intro Hin. exfalso. apply (proj1 H); auto.
Qed.

Lemma in_cities_for_state (city state_code : string) :
  In city (get_cities_for_state state_code) <->
  exists record, get_city_info city = Some record
                 /\ City.state record = Py.upper state_code.
Proof.
  unfold get_cities_for_state, get_city_info. rewrite in_map_iff. split.
  - intros [[name record] [Hname Hin]]. simpl in Hname. subst name.
    apply filter_In in Hin. destruct Hin as [Hin Hstate]. simpl in Hstate.
    exists record. split.
    + apply lookup_of_in; [exact city_names_nodup | exact Hin].
    + apply String.eqb_eq. exact Hstate.
  - intros [record [Hlookup Hstate]]. exists (city, record).
    split; [reflexivity |]. apply filter_In. split.
    + apply lookup_in. exact Hlookup.
    + simpl. apply String.eqb_eq. exact Hstate.
Qed.

(** X2: the cities [get_cities_for_state] lists for a state code are
    exactly the city names for which [get_combined_info] fills in the city
    record. *)
Theorem cities_for_state_iff_combined_city (city state_code : string) :
  In city (get_cities_for_state state_code) <->
  Info.city (get_combined_info (Some city) state_code) <> None.
Proof.
  rewrite in_cities_for_state, get_combined_info_city. unfold get_city_info.
  destruct (Py.lookup CITY_REGULATIONS city) as [record |].
  - destruct (String.eqb (City.state record) (Py.upper state_code)) eqn:E.
    + apply String.eqb_eq in E. split; [discriminate |].
      intros _. exists record. tauto.
    + apply String.eqb_neq in E. split; [| congruence].
      intros [record' [Heq Hstate]]. inversion Heq. subst. contradiction.
  - split; [| congruence]. intros [record [Heq _]]. discriminate.
Qed.

(** Every city record names a state of the state catalog. *)
Lemma city_states_supported (city : string) (record : City.t) :
  In (city, record) CITY_REGULATIONS ->
  Py.lookup STATE_REGULATIONS (City.state record) <> None.
Proof.
  intro H. simpl in H.
  repeat (destruct H as [H | H]; [inversion H; subst; simpl; discriminate |]).
  contradiction.
Qed.

(** X3: whenever the combined lookup fills in a city record it also
    fills in the state record: a city is never reported without its
    state. *)
Theorem combined_city_implies_state (city_name : option string)
        (state_code : string) :
  Info.city (get_combined_info city_name state_code) <> None ->
  Info.state (get_combined_info city_name state_code) <> None.
Proof.
  rewrite get_combined_info_city, get_combined_info_state.
  destruct city_name as [city |]; [| congruence].
  destruct (Py.lookup CITY_REGULATIONS city) as [record |] eqn:Hcity;
    [| congruence].
  destruct (String.eqb (City.state record) (Py.upper state_code)) eqn:E;
    [| congruence].
  intros _. apply String.eqb_eq in E. unfold get_state_info. rewrite <- E.
  apply city_states_supported with city. apply lookup_in. exact Hcity.
Qed.

Lemma combined_city_implies_state_witness :
  Info.city (get_combined_info (Some "Houston") "tx") <> None
  /\ Info.state (get_combined_info (Some "Houston") "tx") <> None.
Proof.
  assert (H : Info.city (get_combined_info (Some "Houston") "tx") <> None)
    by discriminate.
  split; [exact H | exact (combined_city_implies_state _ _ H)].
Defined.

Lemma upper_upper (s : string) : Py.upper (Py.upper s) = Py.upper s.
Proof.
  unfold Py.upper. induction s as [| c s IH]; simpl; [reflexivity |].
  rewrite IH. f_equal.
  destruct c as [[] [] [] [] [] [] [] []]; reflexivity.
Qed.

(** X4: [get_cities_for_state] ignores the letter case of the code,
    lists no city twice, and lists nothing for a code that
    [get_state_info] does not resolve. *)
Theorem get_cities_for_state_properties (state_code : string) :
  NoDup (get_cities_for_state state_code)
  /\ (forall other_code,
        Py.lower other_code = Py.lower state_code ->
        get_cities_for_state other_code = get_cities_for_state state_code)
  /\ (get_state_info state_code = None -> get_cities_for_state state_code = []).
Proof.
  split; [| split].
  - unfold get_cities_for_state. apply NoDup_map_filter. exact city_names_nodup.
  - intros other_code H. unfold get_cities_for_state.
    rewrite <- (upper_lower other_code), <- (upper_lower state_code), H.
    reflexivity.
  - intro Hnone. unfold get_cities_for_state. rewrite filter_none; [reflexivity |].
    intros [city record] Hin. simpl. apply String.eqb_neq. intro Hstate.
    apply (city_states_supported city record Hin).
    rewrite Hstate. exact Hnone.
Qed.

Lemma get_cities_for_state_properties_witness :
  Py.lower "Ca" = Py.lower "cA"
  /\ get_state_info "WA" = None
  /\ get_cities_for_state "Ca" = get_cities_for_state "cA"
  /\ get_cities_for_state "WA" = [].
Proof.
  destruct (get_cities_for_state_properties "cA") as [_ [Hcase _]].
  destruct (get_cities_for_state_properties "WA") as [_ [_ Hunknown]].
  split; [reflexivity |]. split; [reflexivity |].
  split; [apply Hcase; reflexivity | apply Hunknown; reflexivity].
Defined.

(** X5: a key and an angle are an entry of [get_all_angles] exactly when
    [get_angle] resolves the key to that angle, so the name listed for a
    key is the name of the angle the lookup returns. *)
Theorem get_angle_round_trip (angle_key : string) (angle : AppealAngle) :
  In (angle_key, angle) get_all_angles <-> get_angle angle_key = Some angle.
Proof.
  unfold get_all_angles, get_angle. split.
  - apply lookup_of_in. exact angle_keys_nodup.
  - apply lookup_in.
Qed.

(** ** Further properties of the evaluator and the classifier *)

Lemma catalog_required_evidence_nonempty (angle_key : string) (angle : AppealAngle) :
  get_angle angle_key = Some angle -> 1 <= length (required_evidence angle).
Proof.
  intro H. apply lookup_in in H. simpl in H.
  repeat (destruct H as [H | H]; [inversion H; subst; simpl; lia |]).
  contradiction.
Qed.

Lemma filter_all {A : Type} (f : A -> bool) (l : list A) :
  (forall x, In x l -> f x = true) -> filter f l = l.
Proof.
  induction l as [| a l IH]; simpl; intro H; [reflexivity |].
  rewrite (H a) by tauto. f_equal. apply IH. intros x Hx. apply H. tauto.
Qed.

Lemma unmatched_evidence_is_weak (angle_key : string)
      (evidence : Py.Dict Py.value) :
  (forall angle item,
     get_angle angle_key = Some angle -> In item (required_evidence angle) ->
     Py.truthy (Py.get evidence (evidence_key item)) = false) ->
  get_angle_strength angle_key evidence = "weak".
Proof.
  intro Hnone. destruct (get_angle angle_key) as [angle |] eqn:H.
  - rewrite (get_angle_strength_exact _ _ evidence H). apply band_weak.
    unfold matches. rewrite filter_none by (intros item Hin; eauto).
    pose proof (catalog_required_evidence_nonempty _ _ H) as Hlen.
    destruct (length (required_evidence angle)); [lia |].
    reflexivity.
  - unfold get_angle_strength. rewrite H. reflexivity.
Qed.

(** X6: when none of an angle's required-evidence items has a truthy
    value under its derived key, the strength is weak; this covers empty
    evidence and evidence filed under other keys. *)
Theorem get_angle_strength_unmatched_is_weak (angle_key : string)
        (evidence : Py.Dict Py.value) :
  (forall angle item,
     get_angle angle_key = Some angle -> In item (required_evidence angle) ->
     Py.truthy (Py.get evidence (evidence_key item)) = false) ->
  get_angle_strength angle_key evidence = "weak".
Proof.
  intro Hnone. destruct (get_angle angle_key) as [angle |] eqn:H.
  - rewrite (get_angle_strength_exact _ _ evidence H).
    assert (Hmatches : matches angle evidence = 0).
    { unfold matches. rewrite filter_none; [reflexivity |].
      intros item Hin. exact (Hnone angle item eq_refl Hin). }
    rewrite Hmatches. apply band_weak.
    pose proof (catalog_required_evidence_nonempty _ _ H) as Hlen.
    destruct (length (required_evidence angle)); [lia | reflexivity].
  - unfold get_angle_strength. rewrite H. reflexivity.
Qed.

Lemma get_angle_strength_unmatched_is_weak_witness :
  let evidence := [("has_photos", Py.VBool true);
                   ("photos_of_the_citation_showing_errors", Py.VBool false);
                   ("clean_record", Py.VStr "no prior tickets")] in
  (forall angle item,
     get_angle "procedural_error" = Some angle ->
     In item (required_evidence angle) ->
     Py.truthy (Py.get evidence (evidence_key item)) = false)
  /\ get_angle_strength "procedural_error" evidence = "weak".
Proof.
  intro evidence.
  assert (H : forall angle item,
             get_angle "procedural_error" = Some angle ->
             In item (required_evidence angle) ->
             Py.truthy (Py.get evidence (evidence_key item)) = false).
  { intros angle item Hangle Hin. inversion Hangle. subst angle. simpl in Hin.
    repeat (destruct Hin as [<- | Hin]; [reflexivity |]). contradiction. }
  split; [exact H | exact (get_angle_strength_unmatched_is_weak _ _ H)].
Defined.

(** X7: when every required-evidence item of a catalog angle has a
    truthy value under its derived key, the strength is strong. *)
Theorem get_angle_strength_complete_is_strong (angle_key : string)
        (angle : AppealAngle) (evidence : Py.Dict Py.value) :
  get_angle angle_key = Some angle ->
  (forall item, In item (required_evidence angle) ->
     Py.truthy (Py.get evidence (evidence_key item)) = true) ->
  get_angle_strength angle_key evidence = "strong".
Proof.
  intros H Hall. rewrite (get_angle_strength_exact _ _ evidence H).
  apply band_strong. unfold matches. rewrite filter_all by exact Hall.
  pose proof (catalog_required_evidence_nonempty _ _ H) as Hlen.
  destruct (length (required_evidence angle)) as [| n]; [lia |].
  unfold ratio, Qle. cbn [Qnum Qden]. lia.
Qed.

Lemma get_angle_strength_complete_is_strong_witness :
  let evidence :=
    [("photos_of_the_citation_showing_errors", Py.VBool true);
     ("vehicle_registration_showing_correct_information", Py.VStr "registration card");
     ("photos_showing_improper_attachment_if_applicable", Py.VInt 2)] in
  (exists angle,
      get_angle "procedural_error" = Some angle
      /\ forall item, In item (required_evidence angle) ->
           Py.truthy (Py.get evidence (evidence_key item)) = true)
  /\ get_angle_strength "procedural_error" evidence = "strong".
Proof.
  intro evidence.
  destruct (get_angle "procedural_error") as [angle |] eqn:Hangle;
    [| discriminate].
  assert (Hall : forall item, In item (required_evidence angle) ->
                   Py.truthy (Py.get evidence (evidence_key item)) = true).
  { intros item Hin. inversion Hangle. subst angle. simpl in Hin.
    repeat (destruct Hin as [<- | Hin]; [reflexivity |]). contradiction. }
  split; [exists angle; split; [reflexivity | exact Hall] |].
  exact (get_angle_strength_complete_is_strong _ angle evidence Hangle Hall).
Defined.

(** X8: the strength of an angle depends only on the truthiness of the
    evidence under the derived keys of that angle's required items; all
    other evidence entries are ignored. *)
Theorem get_angle_strength_reads_derived_keys_only (angle_key : string)
        (evidence1 evidence2 : Py.Dict Py.value) :
  (forall angle item,
     get_angle angle_key = Some angle -> In item (required_evidence angle) ->
     Py.truthy (Py.get evidence1 (evidence_key item))
     = Py.truthy (Py.get evidence2 (evidence_key item))) ->
  get_angle_strength angle_key evidence1 = get_angle_strength angle_key evidence2.
Proof.
  intro Hagree. unfold get_angle_strength.
  destruct (get_angle angle_key) as [angle |]; [| reflexivity].
  rewrite !count_evidence_matches. unfold matches.
  rewrite (filter_ext_in _
             (fun item => Py.truthy (Py.get evidence2 (evidence_key item))));
    [reflexivity |].
  intros item Hin. apply (Hagree angle item eq_refl Hin).
Qed.

Lemma get_angle_strength_reads_derived_keys_only_witness :
  let evidence1 := [("original_parking_receipt", Py.VBool true);
                    ("has_photos", Py.VBool true)] in
  let evidence2 := [("witness", Py.VStr "neighbour");
                    ("original_parking_receipt", Py.VStr "kept in glovebox")] in
  (forall angle item,
     get_angle "payment_display_issue" = Some angle ->
     In item (required_evidence angle) ->
     Py.truthy (Py.get evidence1 (evidence_key item))
     = Py.truthy (Py.get evidence2 (evidence_key item)))
  /\ get_angle_strength "payment_display_issue" evidence1
     = get_angle_strength "payment_display_issue" evidence2.
Proof.
  intros evidence1 evidence2.
  assert (H : forall angle item,
             get_angle "payment_display_issue" = Some angle ->
             In item (required_evidence angle) ->
             Py.truthy (Py.get evidence1 (evidence_key item))
             = Py.truthy (Py.get evidence2 (evidence_key item))).
  { intros angle item Hangle Hin. inversion Hangle. subst angle. simpl in Hin.
    repeat (destruct Hin as [<- | Hin]; [reflexivity |]). contradiction. }
  split; [exact H | exact (get_angle_strength_reads_derived_keys_only _ _ _ H)].
Defined.




Lemma filter_incl_mono {A : Type} (f g : A -> bool) (l : list A) :
  (forall x, f x = true -> g x = true) ->
  incl (filter f l) (filter g l).
Proof.
  intros H x Hx. apply filter_In in Hx. apply filter_In.
  split; [tauto | apply H; tauto].
Qed.

Lemma flag_setitem (facts : Py.Dict Py.value) (key k : string) (v : Py.value) :
  Py.truthy v = true -> flag facts k = true ->
  flag (Py.setitem facts key v) k = true.
Proof. unfold flag. apply truthy_get_setitem. Qed.

(** X10: once some trigger flag is truthy, assigning a truthy value to
    any fact never removes a suggested angle.  From the fallback this
    fails: an emergency added to empty facts replaces the three default
    angles. *)
Theorem analyze_situation_grows_when_triggered (facts : Py.Dict Py.value)
        (key : string) (v : Py.value) :
  (exists k, In k TRIGGER_KEYS /\ Py.truthy (Py.get facts k) = true) ->
  Py.truthy v = true ->
  incl (analyze_situation facts) (analyze_situation (Py.setitem facts key v))
  /\ ~ incl (analyze_situation [])
            (analyze_situation
               (Py.setitem [] "emergency_situation" (Py.VBool true))).
Proof.
  intros Htrigger Hv. split.
  - assert (Htrigger' : exists k, In k TRIGGER_KEYS
                          /\ Py.truthy (Py.get (Py.setitem facts key v) k) = true).
    { destruct Htrigger as [k [Hk Hflag]]. exists k.
      split; [exact Hk | apply truthy_get_setitem; assumption]. }
    rewrite !analyze_situation_table.
    pose proof (satisfied_angles_nonempty _ Htrigger) as Hne.
    pose proof (satisfied_angles_nonempty _ Htrigger') as Hne'.
    destruct (satisfied_angles facts) eqn:E; [contradiction |].
    destruct (satisfied_angles (Py.setitem facts key v)) eqn:E';
      [contradiction |].
    rewrite <- E, <- E'. unfold satisfied_angles.
    intros angle_key Hin. apply in_map_iff in Hin.
    destruct Hin as [rule [Hkey Hin]]. apply in_map_iff. exists rule.
    split; [exact Hkey |].
    revert Hin. apply filter_incl_mono. intros r Hr.
    unfold rule_satisfied in *. apply existsb_exists in Hr.
    destruct Hr as [k [Hk Hflag]]. apply existsb_exists. exists k.
    split; [exact Hk | apply flag_setitem; assumption].
  - intro Hincl. specialize (Hincl "procedural_error").
    vm_compute in Hincl. intuition discriminate.
Qed.

Lemma analyze_situation_grows_when_triggered_witness :
  let facts := [("first_violation", Py.VBool true);
                ("unclear_signage", Py.VBool false)] in
  (exists k, In k TRIGGER_KEYS /\ Py.truthy (Py.get facts k) = true)
  /\ Py.truthy (Py.VStr "yes") = true
  /\ analyze_situation facts = ["first_time_leniency"]
  /\ analyze_situation (Py.setitem facts "unclear_signage" (Py.VStr "yes"))
     = ["signage_issues"; "first_time_leniency"]
  /\ incl (analyze_situation facts)
          (analyze_situation (Py.setitem facts "unclear_signage" (Py.VStr "yes"))).
Proof.
  intro facts.
  assert (H : exists k, In k TRIGGER_KEYS /\ Py.truthy (Py.get facts k) = true).
  { exists "first_violation". split; [simpl; tauto | reflexivity]. }
  split; [exact H |]. split; [reflexivity |].
  split; [reflexivity |]. split; [reflexivity |].
  exact (proj1 (analyze_situation_grows_when_triggered
                  facts "unclear_signage" (Py.VStr "yes") H eq_refl)).
Defined.

(** ** Further properties of the request assembler *)

Import AppealGeneratorAnalysis.

Lemma add_entries_all_falsy (text : string) (data : Py.Dict Py.value) :
  (forall key value, In (key, value) data -> Py.truthy value = false) ->
  add_entries text data = text.
Proof.
  unfold add_entries. revert text.
  induction data as [| [k v] data IH]; intros text H; simpl; [reflexivity |].
  rewrite (H k v) by (left; reflexivity).
  apply IH. intros key value Hin. apply (H key value). right. exact Hin.
Qed.

Lemma add_entries_filter (text : string) (data : Py.Dict Py.value) :
  add_entries text (filter (fun entry => Py.truthy (snd entry)) data)
  = add_entries text data.
Proof.
  unfold add_entries. revert text.
  induction data as [| [k v] data IH]; intro text; simpl; [reflexivity |].
  destruct (Py.truthy v) eqn:E; simpl; [rewrite E |]; apply IH.
Qed.

(** With a truthy entry the rendering starts with a dash. *)
Lemma add_entries_some_truthy (data : Py.Dict Py.value) :
  (exists key value, In (key, value) data /\ Py.truthy value = true) ->
  exists rest, add_entries "" data = "- " ++ rest.
Proof.
  induction data as [| [k v] data IH]; intros [key [value [Hin Htruthy]]];
    [contradiction |].
  unfold add_entries. simpl. destruct (Py.truthy v) eqn:E.
  - fold (add_entries (entry_line k v) data). rewrite add_entries_app.
    unfold entry_line. eexists. rewrite !str_app_assoc. reflexivity.
  - apply IH. destruct Hin as [Heq | Hin].
    + inversion Heq. subst. congruence.
    + exists key, value. tauto.
Qed.

Lemma format_dict_truthy (data : Py.Dict Py.value) :
  (exists key value, In (key, value) data /\ Py.truthy value = true) ->
  _format_dict data = add_entries "" data.
Proof.
  intro H. destruct (add_entries_some_truthy data H) as [rest Hrest].
  unfold _format_dict. destruct data as [| entry data].
  - destruct H as [key [value [[] _]]].
  - rewrite Hrest. reflexivity.
Qed.

Lemma format_dict_falsy (data : Py.Dict Py.value) :
  (forall key value, In (key, value) data -> Py.truthy value = false) ->
  _format_dict data = "None provided".
Proof.
  intro H. unfold _format_dict. destruct data as [| entry data]; [reflexivity |].
  rewrite (add_entries_all_falsy "" _ H). reflexivity.
Qed.

Lemma some_truthy_or_all_falsy (data : Py.Dict Py.value) :
  (exists key value, In (key, value) data /\ Py.truthy value = true)
  \/ (forall key value, In (key, value) data -> Py.truthy value = false).
Proof.
  induction data as [| [k v] data [Hsome | Hnone]].
  - right. intros key value [].
  - left. destruct Hsome as [key [value [Hin Ht]]]. exists key, value.
    split; [right |]; assumption.
  - destruct (Py.truthy v) eqn:E.
    + left. exists k, v. split; [left; reflexivity | exact E].
    + right. intros key value [Heq | Hin]; [inversion Heq; subst; exact E |].
      exact (Hnone key value Hin).
Qed.

(** X11: [_format_dict] returns the text [None provided] exactly when
    no entry has a truthy value (the empty dictionary included); it never
    returns the empty string, entries with falsy values do not change the
    result, and every truthy entry appears as its line. *)
Theorem format_dict_properties (data : Py.Dict Py.value) :
  (_format_dict data = "None provided" <->
   forall key value, In (key, value) data -> Py.truthy value = false)
  /\ _format_dict data <> ""
  /\ _format_dict (filter (fun entry => Py.truthy (snd entry)) data)
     = _format_dict data
  /\ (forall key value,
        In (key, value) data -> Py.truthy value = true ->
        Py.contains (entry_line key value) (_format_dict data) = true).
Proof.
  destruct (some_truthy_or_all_falsy data) as [Hsome | Hnone].
  - pose proof (format_dict_truthy data Hsome) as E.
    destruct (add_entries_some_truthy data Hsome) as [rest Hrest].
    split; [| split; [| split]].
    + split.
      * rewrite E, Hrest. discriminate.
      * intro H. destruct Hsome as [key [value [Hin Ht]]].
        rewrite (H key value Hin) in Ht. discriminate.
    + rewrite E, Hrest. discriminate.
    + rewrite E. rewrite format_dict_truthy.
      * apply add_entries_filter.
      * destruct Hsome as [key [value [Hin Ht]]]. exists key, value.
        split; [apply filter_In; tauto | exact Ht].
    + intros key value Hin Ht. rewrite E.
      apply occurs_in_contains, entry_in_add_entries; assumption.
  - pose proof (format_dict_falsy data Hnone) as E.
    split; [| split; [| split]].
    + tauto.
    + rewrite E. discriminate.
    + rewrite E. apply format_dict_falsy. intros key value Hin.
      apply filter_In in Hin. apply (Hnone key value). tauto.
    + intros key value Hin Ht. rewrite (Hnone key value Hin) in Ht. discriminate.
Qed.

Lemma resolve_angles_in (all_angles : list string) (angle_key : string)
      (angle : AppealAngle) :
  In angle_key all_angles -> get_angle angle_key = Some angle ->
  In angle (resolve_angles all_angles).
Proof.
  intros Hin Hangle. unfold resolve_angles. apply in_flat_map.
  exists angle_key. split; [exact Hin |]. rewrite Hangle. left. reflexivity.
Qed.

(** The search of [find_occurrence], closing a branch also with a
    hypothesis. *)
Ltac find_from_hypotheses :=
  lazymatch goal with
  | H : In _ [] |- _ => destruct H
  | H : Py.occurs_in ?x ?t |- Py.occurs_in ?x ?t => exact H
  | |- Py.occurs_in ?x ?x => apply occurs_in_refl
  | |- Py.occurs_in _ (add_bullets _ _ _) =>
      first [ apply item_in_add_bullets; assumption
            | apply occurs_in_add_bullets; find_from_hypotheses ]
  | |- Py.occurs_in _ (_ ++ _) =>
      first [ apply occurs_in_app_l; find_from_hypotheses
            | apply occurs_in_app_r; find_from_hypotheses ]
  end.

Lemma occurs_in_angle_summaries (x prompt : string) (angles : list AppealAngle) :
  Py.occurs_in x prompt ->
  Py.occurs_in x (fold_left add_angle_summary angles prompt).
Proof.
  revert prompt. induction angles as [| angle angles IH]; intros prompt H;
    [exact H |].
  simpl. apply IH. unfold add_angle_summary. cbv zeta. find_from_hypotheses.
Qed.

(** The summary block of an angle holds its name, its description and its
    first three strength indicators. *)
Lemma angle_summary_content (prompt : string) (angle : AppealAngle) :
  Py.occurs_in (name angle) (add_angle_summary prompt angle)
  /\ Py.occurs_in (description angle) (add_angle_summary prompt angle)
  /\ (forall point, In point (firstn 3 (strength_indicators angle)) ->
        Py.occurs_in point (add_angle_summary prompt angle)).
Proof.
  unfold add_angle_summary. cbv zeta.
  split; [| split; [| intros point Hin]]; find_from_hypotheses.
Qed.

Lemma angle_in_summaries (x : string) (angle : AppealAngle)
      (angles : list AppealAngle) :
  In angle angles ->
  (forall prompt, Py.occurs_in x (add_angle_summary prompt angle)) ->
  forall prompt, Py.occurs_in x (fold_left add_angle_summary angles prompt).
Proof.
  intros Hin Hx. induction angles as [| a angles IH]; intro prompt;
    [contradiction |].
  simpl. destruct Hin as [-> | Hin].
  - apply occurs_in_angle_summaries. apply Hx.
  - apply IH. exact Hin.
Qed.

(** Search through the comprehensive prompt: facts about its blocks are
    taken from the hypotheses. *)
Ltac find_in_comprehensive :=
  lazymatch goal with
  | H : In _ [] |- _ => destruct H
  | H : Py.occurs_in ?x ?t |- Py.occurs_in ?x ?t => exact H
  | H : forall prompt, Py.occurs_in ?x (fold_left add_angle_summary ?l prompt)
    |- Py.occurs_in ?x (fold_left add_angle_summary ?l _) => apply H
  | |- Py.occurs_in ?x ?x => apply occurs_in_refl
  | |- Py.occurs_in _ (fold_left add_angle_summary _ _) =>
      apply occurs_in_angle_summaries; find_in_comprehensive
  | |- Py.occurs_in _ (add_bullets _ _ _) =>
      first [ apply item_in_add_bullets; assumption
            | apply occurs_in_add_bullets; find_in_comprehensive ]
  | |- Py.occurs_in _ (_ ++ _) =>
      first [ apply occurs_in_app_l; find_in_comprehensive
            | apply occurs_in_app_r; find_in_comprehensive ]
  | |- Py.occurs_in _ (match ?l with [] => _ | _ :: _ => _ end) =>
      destruct l; find_in_comprehensive
  | |- Py.occurs_in _ (match ?o with Some _ => _ | None => _ end) =>
      destruct o; find_in_comprehensive
  end.

Lemma return_inj {A : Type} (a b : A) : Py.Return a = Py.Return b -> a = b.
Proof. intro H. now inversion H. Qed.

Section ComprehensivePrompt.

Variables (citation_details evidence : Py.Dict Py.value).
Variable location_info : Info.t.
Variable all_angles : list string.
Variable state_info : State.t.
Variable prompt : string.
Hypothesis Hstate : Info.state location_info = Some state_info.
Hypothesis Hprompt :
  comprehensive_prompt citation_details location_info all_angles evidence
  = Py.Return prompt.

Lemma comprehensive_has_angle (angle_key : string) (angle : AppealAngle) :
  In angle_key all_angles -> get_angle angle_key = Some angle ->
  Py.occurs_in (name angle) prompt
  /\ Py.occurs_in (description angle) prompt
  /\ (forall point, In point (firstn 3 (strength_indicators angle)) ->
        Py.occurs_in point prompt).
Proof.
  intros Hin Hangle.
  pose proof (resolve_angles_in _ _ _ Hin Hangle) as Hresolved.
  pose proof (angle_in_summaries (name angle) angle _ Hresolved
    (fun p => proj1 (angle_summary_content p angle))) as Hname.
  pose proof (angle_in_summaries (description angle) angle _ Hresolved
    (fun p => proj1 (proj2 (angle_summary_content p angle)))) as Hdescription.
  unfold comprehensive_prompt in Hprompt. rewrite Hstate in Hprompt.
  cbv beta iota zeta in Hprompt.
  apply return_inj in Hprompt. rewrite <- Hprompt.
  split; [| split].
  - find_in_comprehensive.
  - find_in_comprehensive.
  - intros point Hpoint.
    pose proof (angle_in_summaries point angle _ Hresolved
      (fun p => proj2 (proj2 (angle_summary_content p angle)) point Hpoint))
      as Hpoints.
    find_in_comprehensive.
Qed.

Lemma comprehensive_has_fact (key : string) (value : Py.value) :
  In (key, value) citation_details -> Py.truthy value = true ->
  Py.occurs_in (entry_line key value) prompt.
Proof.
  intros Hin Htruthy.
  assert (H : Py.occurs_in (entry_line key value) (_format_dict citation_details)).
  { rewrite format_dict_truthy by (exists key, value; tauto).
    apply entry_in_add_entries; assumption. }
  unfold comprehensive_prompt in Hprompt. rewrite Hstate in Hprompt.
  cbv beta iota zeta in Hprompt.
  apply return_inj in Hprompt. rewrite <- Hprompt.
  find_in_comprehensive.
Qed.

Lemma comprehensive_has_evidence (key : string) (value : Py.value) :
  In (key, value) evidence -> Py.truthy value = true ->
  Py.occurs_in (entry_line key value) prompt.
Proof.
  intros Hin Htruthy.
  assert (H : Py.occurs_in (entry_line key value) (_format_dict evidence)).
  { rewrite format_dict_truthy by (exists key, value; tauto).
    apply entry_in_add_entries; assumption. }
  unfold comprehensive_prompt in Hprompt. rewrite Hstate in Hprompt.
  cbv beta iota zeta in Hprompt.
  apply return_inj in Hprompt. rewrite <- Hprompt.
  find_in_comprehensive.
Qed.

Lemma comprehensive_has_jurisdiction :
  Py.occurs_in ("State: " ++ State.name state_info ++ nl) prompt
  /\ (forall defense, In defense (State.common_defenses state_info) ->
        Py.occurs_in defense prompt)
  /\ (forall city_info rule,
        Info.city location_info = Some city_info ->
        In rule (City.specific_rules city_info) ->
        Py.occurs_in rule prompt).
Proof.
  unfold comprehensive_prompt in Hprompt. rewrite Hstate in Hprompt.
  cbv beta iota zeta in Hprompt.
  apply return_inj in Hprompt. rewrite <- Hprompt.
  split; [| split].
  - apply occurs_in_trans with ("State: " ++ State.name state_info ++ nl ++
        "Appeal Deadline: " ++
          Py.str (Py.VInt (State.statute_limitations_days state_info)) ++
          " days" ++ nl).
    + exists "", ("Appeal Deadline: " ++
          Py.str (Py.VInt (State.statute_limitations_days state_info)) ++
          " days" ++ nl).
      simpl. now rewrite !str_app_assoc.
    + find_in_comprehensive.
  - intros defense Hin. find_in_comprehensive.
  - intros city_info rule Hcity Hin. rewrite Hcity. find_in_comprehensive.
Qed.

End ComprehensivePrompt.

(** X12: for a jurisdiction with a state record the comprehensive
    operation assembles one request, sends it once and returns the
    generator's text unchanged, or the error text when the call raises.
    The request holds the name, the description and the first three
    strength indicators of every key of the list that the catalog
    resolves, the line of every truthy fact and evidence entry, the state
    name, the state's defenses and the resolved city's rules. *)
Theorem generate_comprehensive_appeal_request
        (model : Model) (citation_details evidence : Py.Dict Py.value)
        (location_info : Info.t) (all_angles : list string)
        (state_info : State.t) (log : Log) :
  Info.state location_info = Some state_info ->
  exists prompt,
    comprehensive_prompt citation_details location_info all_angles evidence
    = Py.Return prompt
    /\ generate_comprehensive_appeal model citation_details location_info
                                     all_angles evidence log
       = (Py.Return
            match model (length log) prompt with
            | Py.Return text => text
            | Py.Raise e =>
                "Error generating comprehensive appeal: " ++ Py.exn_str e
            end,
          (log ++ [prompt])%list)
    /\ (forall angle_key angle,
          In angle_key all_angles -> get_angle angle_key = Some angle ->
          Py.contains (name angle) prompt = true
          /\ Py.contains (description angle) prompt = true
          /\ (forall point,
                In point (firstn 3 (strength_indicators angle)) ->
                Py.contains point prompt = true))
    /\ (forall key value,
          In (key, value) citation_details -> Py.truthy value = true ->
          Py.contains (entry_line key value) prompt = true)
    /\ (forall key value,
          In (key, value) evidence -> Py.truthy value = true ->
          Py.contains (entry_line key value) prompt = true)
    /\ Py.contains ("State: " ++ State.name state_info ++ nl) prompt = true
    /\ (forall defense,
          In defense (State.common_defenses state_info) ->
          Py.contains defense prompt = true)
    /\ (forall city_info rule,
          Info.city location_info = Some city_info ->
          In rule (City.specific_rules city_info) ->
          Py.contains rule prompt = true).
Proof.
  intro Hstate.
  destruct (comprehensive_prompt_with_state citation_details evidence
              location_info all_angles state_info Hstate) as [prompt Hprompt].
  exists prompt. split; [exact Hprompt |]. split.
  { unfold generate_comprehensive_appeal. rewrite Hprompt.
    unfold try_except, generate_content, ret.
    destruct (model (length log) prompt); reflexivity. }
  destruct (comprehensive_has_jurisdiction citation_details evidence
              location_info all_angles state_info prompt Hstate Hprompt)
    as [Hname [Hdefenses Hrules]].
  split; [| split; [| split; [| split; [| split]]]].
  - intros angle_key angle Hin Hangle.
    destruct (comprehensive_has_angle citation_details evidence location_info
                all_angles state_info prompt Hstate Hprompt
                angle_key angle Hin Hangle) as [H1 [H2 H3]].
    split; [| split; [| intros point Hpoint]]; apply occurs_in_contains; auto.
  - intros key value Hin Htruthy. apply occurs_in_contains.
    exact (comprehensive_has_fact citation_details evidence location_info
             all_angles state_info prompt Hstate Hprompt key value Hin Htruthy).
  - intros key value Hin Htruthy. apply occurs_in_contains.
    exact (comprehensive_has_evidence citation_details evidence location_info
             all_angles state_info prompt Hstate Hprompt key value Hin Htruthy).
  - apply occurs_in_contains. exact Hname.
  - intros defense Hin. apply occurs_in_contains. auto.
  - intros city_info rule Hcity Hin. apply occurs_in_contains. eauto.
Qed.

Lemma generate_comprehensive_appeal_request_witness :
  let model : Model := fun _ _ => Py.Return "Dear Hearing Officer" in
  let facts := [("citation_number", Py.VStr "HOU-7731");
                ("fine_amount", Py.VStr "")] in
  let location_info := get_combined_info (Some "Houston") "tx" in
  (exists state_info, Info.state location_info = Some state_info)
  /\ (exists prompt,
        generate_comprehensive_appeal model facts location_info
          ["time_discrepancy"; "not_an_angle"] [] []
        = (Py.Return "Dear Hearing Officer", [prompt])
        /\ Py.contains "Time Discrepancy or Error" prompt = true
        /\ Py.contains "- Citation Number: HOU-7731" prompt = true).
Proof.
  intros model facts location_info.
  destruct (Info.state location_info) as [state_info |] eqn:Hstate;
    [| discriminate].
  split; [exists state_info; reflexivity |].
  destruct (generate_comprehensive_appeal_request
              model facts [] location_info
              ["time_discrepancy"; "not_an_angle"] state_info [] Hstate)
    as [prompt [_ [Hrun [Hangles [Hfacts _]]]]].
  exists prompt. split; [exact Hrun |]. split.
  - destruct (get_angle "time_discrepancy") as [angle |] eqn:Hangle;
      [| discriminate].
    destruct (Hangles "time_discrepancy" angle (or_introl eq_refl) Hangle)
      as [Hname _].
    inversion Hangle. subst angle. exact Hname.
  - apply occurs_in_contains.
    apply occurs_in_trans
      with (entry_line "citation_number" (Py.VStr "HOU-7731")).
    + exists "", nl. reflexivity.
    + apply contains_occurs_in.
      apply (Hfacts "citation_number" (Py.VStr "HOU-7731"));
        [left; reflexivity | reflexivity].
Defined.

(** ** The analysis and the follow-up questions *)

Lemma fold_items_scalars (data : Py.Dict Py.value) (start : string) :
  fold_left
    (fun formatted entry =>
       if item_truthy (snd entry)
       then formatted ++ "- " ++
            Py.title (Py.replace "_"%char " "%char (fst entry)) ++
            ": " ++ item_str (snd entry) ++ nl
       else formatted)
    (map (fun entry => (fst entry, Scalar (snd entry))) data) start
  = add_entries start data.
Proof.
  unfold add_entries, entry_line. revert start.
  induction data as [| [k v] data IH]; intro start; [reflexivity |].
  cbn [map fold_left fst snd item_truthy item_str].
  destruct (Py.truthy v); apply IH.
Qed.

(** On dictionaries of scalars the two renderings agree. *)
Lemma format_dict_items_scalars (data : Py.Dict Py.value) :
  _format_dict_items (map (fun entry => (fst entry, Scalar (snd entry))) data)
  = _format_dict data.
Proof.
  destruct data as [| entry data]; [reflexivity |].
  unfold _format_dict_items, _format_dict.
  change (map (fun e => (fst e, Scalar (snd e))) (entry :: data))
    with ((fst entry, Scalar (snd entry))
            :: map (fun e => (fst e, Scalar (snd e))) data).
  cbv zeta.
  change ((fst entry, Scalar (snd entry))
            :: map (fun e => (fst e, Scalar (snd e))) data)
    with (map (fun e => (fst e, Scalar (snd e))) (entry :: data)).
  rewrite fold_items_scalars. reflexivity.
Qed.

Lemma lstrip_by_head (drop : ascii -> bool) (s : string) :
  match PyText.lstrip_by drop s with
  | EmptyString => True
  | String c _ => drop c = false
  end.
Proof.
  induction s as [| c s IH]; simpl; [exact I |].
  destruct (drop c) eqn:E; [exact IH | exact E].
Qed.

Lemma rstrip_by_head (drop : ascii -> bool) (c : ascii) (s : string) :
  drop c = false ->
  exists r, PyText.rstrip_by drop (String c s) = String c r.
Proof.
  intro H. simpl. destruct (PyText.rstrip_by drop s) as [| c' r].
  - rewrite H. eexists. reflexivity.
  - eexists. reflexivity.
Qed.

Lemma rstrip_by_idempotent (drop : ascii -> bool) (s : string) :
  PyText.rstrip_by drop (PyText.rstrip_by drop s) = PyText.rstrip_by drop s.
Proof.
  induction s as [| c s IH]; [reflexivity |].
  simpl. destruct (PyText.rstrip_by drop s) as [| c' r] eqn:E.
  - destruct (drop c) eqn:Ec; [reflexivity |]. simpl. now rewrite Ec.
  - cbn [PyText.rstrip_by] in *. rewrite IH. reflexivity.
Qed.

Lemma lstrip_by_fixed (drop : ascii -> bool) (s : string) :
  match s with
  | EmptyString => True
  | String c _ => drop c = false
  end ->
  PyText.lstrip_by drop s = s.
Proof. destruct s as [| c s]; simpl; [reflexivity |]. now intros ->. Qed.

(** A stripped string is left unchanged by [strip]. *)
Lemma strip_idempotent (s : string) : PyText.strip (PyText.strip s) = PyText.strip s.
Proof.
  unfold PyText.strip.
  pose proof (lstrip_by_head PyText.is_space s) as Hhead.
  destruct (PyText.lstrip_by PyText.is_space s) as [| c t] eqn:E.
  - reflexivity.
  - destruct (rstrip_by_head PyText.is_space c t Hhead) as [r Hr].
    rewrite Hr. rewrite lstrip_by_fixed by exact Hhead.
    rewrite <- Hr. apply rstrip_by_idempotent.
Qed.

Lemma occurs_in_prefix4 (a b c d rest : string) :
  Py.occurs_in (a ++ b ++ c ++ d) (a ++ b ++ c ++ d ++ rest).
Proof. exists "", rest. simpl. now rewrite !str_app_assoc. Qed.

Lemma analyze_citation_strength_run (model : Model)
      (citation_details evidence : Py.Dict Py.value) (location_info : Info.t)
      (log : Log) :
  let prompt := analysis_prompt citation_details location_info evidence in
  analyze_citation_strength model citation_details location_info evidence log
  = (Py.Return
       match model (length log) prompt with
       | Py.Return text =>
           [("success", Py.VBool true); ("analysis", Py.VStr text)]
       | Py.Raise e =>
           [("success", Py.VBool false); ("error", Py.VStr (Py.exn_str e))]
       end,
     (log ++ [prompt])%list).
Proof.
  cbv zeta. unfold analyze_citation_strength, try_except, bind, generate_content,
    ret.
  destruct (model (length log) _); reflexivity.
Qed.

(** X13: [analyze_citation_strength] never raises, also for a
    jurisdiction without a state record, whose block reads
    [None provided].  It sends one request and returns a dictionary whose
    [success] entry is truthy exactly when the generator returned text;
    then [analysis] is that text, otherwise [error] is the exception's
    description and there is no [analysis] entry. *)
Theorem analyze_citation_strength_tagged
        (model : Model) (citation_details evidence : Py.Dict Py.value)
        (location_info : Info.t) (log : Log) :
  let prompt := analysis_prompt citation_details location_info evidence in
  exists result,
    analyze_citation_strength model citation_details location_info evidence log
    = (Py.Return result, (log ++ [prompt])%list)
    /\ (Py.truthy (Py.get result "success") = true <->
        exists text, model (length log) prompt = Py.Return text)
    /\ (forall text,
          model (length log) prompt = Py.Return text ->
          Py.get result "analysis" = Py.VStr text
          /\ Py.lookup result "error" = None)
    /\ (forall e,
          model (length log) prompt = Py.Raise e ->
          Py.get result "error" = Py.VStr (Py.exn_str e)
          /\ Py.lookup result "analysis" = None)
    /\ (Info.state location_info = None ->
        Py.contains ("JURISDICTION:" ++ nl ++ "None provided" ++ nl) prompt = true).
Proof.
  cbv zeta. eexists. split; [apply analyze_citation_strength_run |].
  split; [| split; [| split]].
  - destruct (model (length log) _) as [text | e]; simpl.
    + split; [intros _; exists text; reflexivity | reflexivity].
    + split; [discriminate | intros [text H]; discriminate].
  - intros text H. rewrite H. split; reflexivity.
  - intros e H. rewrite H. split; reflexivity.
  - intro Hstate. apply occurs_in_contains.
    unfold analysis_prompt. rewrite Hstate. unfold format_state.
    do 10 apply occurs_in_app_r. apply occurs_in_prefix4.
Qed.

Lemma analyze_citation_strength_tagged_witness :
  let failing : Model :=
    fun _ _ => Py.Raise (Py.Exception "ResourceExhausted" "429 quota exceeded") in
  let location_info := get_combined_info None "WA" in
  Info.state location_info = None
  /\ (exists prompt,
        analyze_citation_strength failing [] location_info [] []
        = (Py.Return [("success", Py.VBool false);
                      ("error", Py.VStr "429 quota exceeded")],
           [prompt])
        /\ Py.contains ("JURISDICTION:" ++ nl ++ "None provided" ++ nl) prompt
           = true).
Proof.
  intros failing location_info.
  assert (Hstate : Info.state location_info = None) by reflexivity.
  split; [exact Hstate |].
  destruct (analyze_citation_strength_tagged failing [] [] location_info [])
    as [result [Hrun [_ [_ [_ Hnone]]]]].
  eexists. split; [| exact (Hnone Hstate)].
  apply analyze_citation_strength_run.
Defined.

Lemma suggest_follow_up_questions_run (model : Model)
      (citation_details : Py.Dict Py.value) (angle : AppealAngle) (log : Log) :
  let prompt := follow_up_prompt citation_details angle in
  suggest_follow_up_questions model citation_details angle log
  = (Py.Return
       match model (length log) prompt with
       | Py.Return text => firstn 5 (parse_questions text)
       | Py.Raise e => ["Error generating questions: " ++ Py.exn_str e]
       end,
     (log ++ [prompt])%list).
Proof.
  cbv zeta. unfold suggest_follow_up_questions, try_except, bind,
    generate_content, ret.
  destruct (model (length log) _); reflexivity.
Qed.

Lemma parse_questions_stripped (text question : string) :
  In question (parse_questions text) -> PyText.strip question = question.
Proof.
  unfold parse_questions. intro H. apply in_map_iff in H.
  destruct H as [line [<- _]]. apply strip_idempotent.
Qed.

(** X14: [suggest_follow_up_questions] never raises and sends one
    request.  When the generator returns text it gives one question for
    each line that is not blank and does not start with [#] after
    stripping, in order, cut off after five, and every question is
    stripped of surrounding whitespace (a line holding only numbering gives
    the empty question).  When the call raises it gives the single text
    [Error generating questions: ] followed by the description. *)
Theorem suggest_follow_up_questions_result
        (model : Model) (citation_details : Py.Dict Py.value)
        (angle : AppealAngle) (log : Log) :
  let prompt := follow_up_prompt citation_details angle in
  exists questions,
    suggest_follow_up_questions model citation_details angle log
    = (Py.Return questions, (log ++ [prompt])%list)
    /\ length questions <= 5
    /\ (forall text,
          model (length log) prompt = Py.Return text ->
          let kept := filter keeps_line (PyText.split PyText.line_feed text) in
          length questions = Nat.min 5 (length kept)
          /\ questions
             = map (fun line =>
                      PyText.strip
                        (PyText.lstrip_chars "0123456789.-) " (PyText.strip line)))
                   (firstn 5 kept)
          /\ forall question, In question questions ->
               PyText.strip question = question)
    /\ (forall e,
          model (length log) prompt = Py.Raise e ->
          questions = ["Error generating questions: " ++ Py.exn_str e])
    /\ parse_questions ("1." ++ nl ++ "# notes" ++ nl ++ "   " ++ nl ++ " 2) Why? ")
       = [""; "Why?"].
Proof.
  cbv zeta. eexists. split; [apply suggest_follow_up_questions_run |].
  split; [| split; [| split]].
  - destruct (model (length log) _) as [text | e].
    + rewrite length_firstn. apply Nat.le_min_l.
    + simpl. lia.
  - intros text H. rewrite H. split; [| split].
    + unfold parse_questions. rewrite length_firstn, length_map. reflexivity.
    + unfold parse_questions. apply firstn_map.
    + intros question Hin. apply (parse_questions_stripped text).
      revert Hin. generalize (parse_questions text). intro l.
      generalize 5. intro n. revert l.
      induction n as [| n IH]; intros [| q l]; simpl; try tauto.
      intros [-> | Hin]; [tauto | right; exact (IH l Hin)].
  - intros e H. rewrite H. reflexivity.
  - reflexivity.
Qed.

Lemma suggest_follow_up_questions_result_witness :
  let answer :=
    "Here are the questions:" ++ nl ++ nl ++
    "1. Where was the sign?" ++ nl ++
    "2. Was it dark?" ++ nl ++
    "# internal note" ++ nl ++
    "3. Who was with you?" ++ nl ++
    "4. Did you take photos?" ++ nl ++
    "5. When did you return?" in
  let model : Model := fun _ _ => Py.Return answer in
  match get_angle "signage_issues" with
  | Some angle =>
      (exists text, model 0 (follow_up_prompt [] angle) = Py.Return text)
      /\ fst (suggest_follow_up_questions model [] angle [])
         = Py.Return ["Here are the questions:"; "Where was the sign?";
                      "Was it dark?"; "Who was with you?";
                      "Did you take photos?"]
  | None => False
  end.
Proof.
  intros answer model.
  destruct (get_angle "signage_issues") as [angle |] eqn:Hangle;
    [| discriminate].
  destruct (suggest_follow_up_questions_result model [] angle [])
    as [questions [Hrun [_ [Hparsed _]]]].
  assert (Hmodel : model (length (@nil string)) (follow_up_prompt [] angle)
                   = Py.Return answer) by reflexivity.
  destruct (Hparsed answer Hmodel) as [_ [Hquestions _]].
  split; [exists answer; reflexivity |].
  rewrite Hrun, Hquestions. reflexivity.
Defined.

(** ** The callers *)

Import AppealWorkflow InteractiveQuestionnaire.

Lemma contains_empty (hay : string) : Py.contains "" hay = true.
Proof. destruct hay; reflexivity. Qed.

Lemma contains_value_of_line (key text prompt : string) :
  (Py.truthy (Py.VStr text) = true ->
   Py.contains (entry_line key (Py.VStr text)) prompt = true) ->
  Py.contains text prompt = true.
Proof.
  intro H. destruct (Py.truthy (Py.VStr text)) eqn:E.
  - apply occurs_in_contains.
    apply occurs_in_trans with (entry_line key (Py.VStr text)).
    + apply (value_in_entry_line key (Py.VStr text)).
    + apply contains_occurs_in. apply H. reflexivity.
  - simpl in E. apply negb_false_iff, String.eqb_eq in E. subst text.
    apply contains_empty.
Qed.

(** X15: [quick_appeal] returns only for a state code that
    [get_state_info] resolves.  For any other code it raises
    AttributeError before anything is sent to the generator.  For a
    resolved code it sends one request, which holds the citation number,
    the violation type and the names of the two fixed angles, and returns
    the generated text or the error text. *)
Theorem quick_appeal_by_state
        (model : Model) (citation_number state violation_type : string)
        (log : Log) :
  (get_state_info state = None ->
   quick_appeal model citation_number state violation_type log
   = (Py.Raise Py.AttributeError_None_get, log))
  /\ (forall state_info,
        get_state_info state = Some state_info ->
        exists prompt,
          quick_appeal model citation_number state violation_type log
          = (Py.Return
               match model (length log) prompt with
               | Py.Return text => text
               | Py.Raise e =>
                   "Error generating comprehensive appeal: " ++ Py.exn_str e
               end,
             (log ++ [prompt])%list)
          /\ Py.contains citation_number prompt = true
          /\ Py.contains violation_type prompt = true
          /\ Py.contains "- First Violation: True" prompt = true
          /\ Py.contains "Procedural Error" prompt = true
          /\ Py.contains "First-Time Violation / Good Record" prompt = true
          /\ Py.contains (State.name state_info) prompt = true).
Proof.
  unfold quick_appeal. cbv zeta. rewrite get_combined_info_state. split.
  - intro Hnone. unfold generate_comprehensive_appeal.
    rewrite comprehensive_prompt_without_state by (simpl; exact Hnone).
    reflexivity.
  - intros state_info Hstate.
    set (facts := [("citation_number", Py.VStr citation_number);
                   ("violation_type", Py.VStr violation_type);
                   ("first_violation", Py.VBool true)]).
    set (location_info := {| Info.state := get_state_info state;
                             Info.city := None;
                             Info.available_grounds := [] |}).
    assert (Hinfo : Info.state location_info = Some state_info) by exact Hstate.
    destruct (comprehensive_prompt_with_state facts [] location_info
                ["procedural_error"; "first_time_leniency"] state_info Hinfo)
      as [prompt Hprompt].
    exists prompt. split.
    { unfold generate_comprehensive_appeal. rewrite Hprompt.
      unfold try_except, generate_content, ret.
      destruct (model (length log) prompt); reflexivity. }
    pose proof (comprehensive_has_fact facts [] location_info _ state_info
                  prompt Hinfo Hprompt) as Hfacts.
    pose proof (comprehensive_has_angle facts [] location_info _ state_info
                  prompt Hinfo Hprompt) as Hangles.
    destruct (comprehensive_has_jurisdiction facts [] location_info _ state_info
                prompt Hinfo Hprompt) as [Hname _].
    split; [| split; [| split; [| split; [| split]]]].
    + apply (contains_value_of_line "citation_number"). intro Ht.
      apply occurs_in_contains, Hfacts; [simpl; tauto | exact Ht].
    + apply (contains_value_of_line "violation_type"). intro Ht.
      apply occurs_in_contains, Hfacts; [simpl; tauto | exact Ht].
    + apply occurs_in_contains.
      apply occurs_in_trans with (entry_line "first_violation" (Py.VBool true)).
      * exists "", nl. reflexivity.
      * apply Hfacts; [simpl; tauto | reflexivity].
    + apply occurs_in_contains.
      destruct (get_angle "procedural_error") as [angle |] eqn:Hangle;
        [| discriminate].
      destruct (Hangles "procedural_error" angle (or_introl eq_refl) Hangle)
        as [H _].
      inversion Hangle. subst angle. exact H.
    + apply occurs_in_contains.
      destruct (get_angle "first_time_leniency") as [angle |] eqn:Hangle;
        [| discriminate].
      destruct (Hangles "first_time_leniency" angle
                        (or_intror (or_introl eq_refl)) Hangle) as [H _].
      inversion Hangle. subst angle. exact H.
    + apply occurs_in_contains.
      apply occurs_in_trans with ("State: " ++ State.name state_info ++ nl);
        [| exact Hname].
      apply occurs_in_app_r, occurs_in_app_l, occurs_in_refl.
Qed.

Lemma quick_appeal_by_state_witness :
  let model : Model := fun _ _ => Py.Return "Dear Hearing Officer" in
  get_state_info "WA" = None
  /\ (exists state_info, get_state_info "fl" = Some state_info)
  /\ quick_appeal model "ABC123" "WA" "expired meter" []
     = (Py.Raise Py.AttributeError_None_get, [])
  /\ fst (quick_appeal model "ABC123" "fl" "expired meter" [])
     = Py.Return "Dear Hearing Officer".
Proof.
  intro model.
  destruct (quick_appeal_by_state model "ABC123" "WA" "expired meter" [])
    as [Hunknown _].
  destruct (quick_appeal_by_state model "ABC123" "fl" "expired meter" [])
    as [_ Hknown].
  destruct (get_state_info "fl") as [state_info |] eqn:Hstate; [| discriminate].
  destruct (Hknown state_info eq_refl) as [prompt [Hrun _]].
  split; [reflexivity |]. split; [exists state_info; reflexivity |].
  split; [exact (Hunknown eq_refl) |].
  rewrite Hrun. reflexivity.
Defined.

(** Every key the classifier returns is resolved by the catalog. *)
Lemma analyze_situation_in_catalog_keys (facts : Py.Dict Py.value) :
  (forall key, In key (analyze_situation facts) -> get_angle key <> None)
  /\ length (analyze_situation facts) <= 9.
Proof.
  rewrite analyze_situation_table.
  pose proof (satisfied_angles_incl facts) as Hincl.
  pose proof (satisfied_angles_length facts) as Hlen.
  destruct (satisfied_angles facts) as [| k l].
  - split; [| simpl; lia].
    intros key Hkey. apply priority_order_in_catalog.
    apply fallback_in_priority_order. exact Hkey.
  - split; [| exact Hlen].
    intros key Hkey. apply priority_order_in_catalog. apply Hincl. exact Hkey.
Qed.

(** Keys built by the questionnaire: an evidence key contains [has_] or
    [_details]. *)
Lemma record_evidence_keys (selected : list (string * string)) :
  forall evidence : Py.Dict Py.value,
    (forall k, In k (map fst evidence) ->
       Py.contains "has_" k = true \/ Py.contains "_details" k = true) ->
    forall k, In k (map fst (record_evidence selected evidence)) ->
      Py.contains "has_" k = true \/ Py.contains "_details" k = true.
Proof.
  assert (Hset : forall (d : Py.Dict Py.value) key v k,
             In k (map fst (Py.setitem d key v)) -> In k (map fst d) \/ k = key).
  { induction d as [| [k0 v0] d IH]; intros key v k; simpl.
    - intros [<- | []]. tauto.
    - destruct (String.eqb k0 key); simpl; [tauto |].
      intros [<- | H]; [tauto |]. destruct (IH _ _ _ H); tauto. }
  induction selected as [| [evidence_type details] rest IH];
    intros evidence Hkeys k Hin; [exact (Hkeys k Hin) |].
  cbn [record_evidence] in Hin. cbv zeta in Hin.
  apply (IH _) in Hin; [exact Hin |]. clear Hin k.
  intros k Hin.
  set (key := Py.replace "/" "_" (Py.replace " " "_" (Py.lower evidence_type))) in *.
  assert (Hhas : forall k',
             In k' (map fst (Py.setitem evidence ("has_" ++ key) (Py.VBool true))) ->
             Py.contains "has_" k' = true \/ Py.contains "_details" k' = true).
  { intros k' H'. destruct (Hset _ _ _ _ H') as [Hold | ->]; [auto |].
    left. apply occurs_in_contains. exists "", key. reflexivity. }
  destruct (Py.truthy (Py.VStr details)); [| exact (Hhas k Hin)].
  destruct (Hset _ _ _ _ Hin) as [Hold | ->]; [exact (Hhas k Hold) |].
  right. apply occurs_in_contains. exists key, "".
  now rewrite str_app_nil_r.
Qed.

(** No derived key of the catalog contains [has_] or [_details]. *)
Lemma catalog_keys_plain (angle_key : string) (angle : AppealAngle) (item : string) :
  get_angle angle_key = Some angle -> In item (required_evidence angle) ->
  Py.contains "has_" (evidence_key item) = false
  /\ Py.contains "_details" (evidence_key item) = false.
Proof.
  intros Hangle Hin. apply lookup_in in Hangle. simpl in Hangle.
  repeat (destruct Hangle as [Hangle | Hangle];
          [inversion Hangle; subst; simpl in Hin;
           repeat (destruct Hin as [<- | Hin]; [split; reflexivity |]);
           contradiction |]).
  contradiction.
Qed.

(** X16: with the evidence dictionary the questionnaire builds, whatever
    evidence types are selected and described, every angle is rated weak:
    its keys all contain [has_] or [_details], and no derived key of a
    required-evidence item does.  So every angle the questionnaire
    presents is shown as a weak case. *)
Theorem questionnaire_strength_always_weak
        (selected : list (string * string))
        (citation_details : Py.Dict Py.value) (angle_key : string) :
  get_angle_strength angle_key (record_evidence selected []) = "weak"
  /\ (forall presented,
        In presented
           (presented_angles citation_details (record_evidence selected [])) ->
        snd presented = "weak")
  /\ map (fun presented => fst (fst presented))
         (presented_angles citation_details (record_evidence selected []))
     = analyze_situation citation_details.
Proof.
  assert (Hweak : forall key,
             get_angle_strength key (record_evidence selected []) = "weak").
  { intro key. apply unmatched_evidence_is_weak. intros angle item Hangle Hin.
    destruct (catalog_keys_plain key angle item Hangle Hin) as [Hhas Hdetails].
    unfold Py.get.
    destruct (Py.lookup (record_evidence selected []) (evidence_key item))
      as [v |] eqn:Hlookup; [| reflexivity].
    exfalso. apply lookup_in in Hlookup.
    assert (Hkey : In (evidence_key item)
                      (map fst (record_evidence selected [])))
      by (apply in_map_iff; exists (evidence_key item, v); tauto).
    destruct (record_evidence_keys selected [] (fun k H => match H with end)
                                   _ Hkey); congruence. }
  split; [apply Hweak |]. split.
  - intros presented Hin. unfold presented_angles in Hin.
    apply in_flat_map in Hin. destruct Hin as [key [_ Hin]].
    destruct (get_angle key); [| contradiction].
    destruct Hin as [<- | []]. apply Hweak.
  - unfold presented_angles.
    pose proof (proj1 (analyze_situation_in_catalog_keys citation_details))
      as Hcatalog.
    induction (analyze_situation citation_details) as [| key keys IH];
      [reflexivity |].
    cbn [flat_map]. destruct (get_angle key) as [angle |] eqn:Hangle.
    + cbn [app map fst]. f_equal. apply IH.
      intros k Hk. apply Hcatalog. right. exact Hk.
    + exfalso. apply (Hcatalog key); [left; reflexivity | exact Hangle].
Qed.

(** The classifier's result is fixed by the trigger flags. *)
Lemma analyze_situation_same_flags (facts1 facts2 : Py.Dict Py.value) :
  (forall k, In k TRIGGER_KEYS ->
     Py.truthy (Py.get facts1 k) = Py.truthy (Py.get facts2 k)) ->
  analyze_situation facts1 = analyze_situation facts2.
Proof.
  intro Hagree.
  assert (E : satisfied_angles facts1 = satisfied_angles facts2).
  { unfold satisfied_angles. f_equal. apply filter_ext_in.
    intros rule Hrule. unfold rule_satisfied. apply existsb_agree.
    intros k Hk. apply Hagree.
    rewrite trigger_keys_of_rules. apply in_flat_map. exists rule. tauto. }
  rewrite !analyze_situation_table, E. reflexivity.
Qed.

Lemma truthy_get_or_false (data : Py.Dict Py.value) (k : string) :
  Py.truthy (WebApp.get_or data k (Py.VBool false)) = Py.truthy (Py.get data k).
Proof.
  unfold WebApp.get_or, Py.get. destruct (Py.lookup data k); reflexivity.
Qed.

(** The flags the classifier sees in the facts the endpoint builds. *)
Lemma analyze_citation_flags (data : Py.Dict Py.value) (k : string) :
  In k TRIGGER_KEYS ->
  flag (WebApp.analyze_citation_details data) k
  = if existsb (String.eqb k) WebApp.COPIED_TRIGGERS
    then Py.truthy (Py.get data k) else false.
Proof.
  intro Hk. simpl in Hk.
  repeat (destruct Hk as [<- | Hk];
          [unfold flag, Py.get; cbn; try apply truthy_get_or_false;
           try reflexivity |]).
  contradiction.
Qed.

(** X17: the response of the analysis endpoint depends only on the
    truthiness of the eight trigger facts it copies from the request;
    the other eleven trigger facts, such as has_errors or unclear_zone,
    have no effect even when the request sends them. *)
Theorem analyze_citation_reads_copied_triggers (data1 data2 : Py.Dict Py.value) :
  (forall k, In k WebApp.COPIED_TRIGGERS ->
     Py.truthy (Py.get data1 k) = Py.truthy (Py.get data2 k)) ->
  WebApp.analyze_citation data1 = WebApp.analyze_citation data2.
Proof.
  intro Hagree. unfold WebApp.analyze_citation. cbv zeta.
  rewrite (analyze_situation_same_flags
             (WebApp.analyze_citation_details data1)
             (WebApp.analyze_citation_details data2)); [reflexivity |].
  intros k Hk. fold (flag (WebApp.analyze_citation_details data1) k).
  fold (flag (WebApp.analyze_citation_details data2) k).
  rewrite !analyze_citation_flags by exact Hk.
  destruct (existsb (String.eqb k) WebApp.COPIED_TRIGGERS) eqn:E;
    [| reflexivity].
  apply Hagree. apply existsb_exists in E. destruct E as [k' [Hk' Heq]].
  apply String.eqb_eq in Heq. subst k'. exact Hk'.
Qed.

Lemma analyze_citation_reads_copied_triggers_witness :
  let data1 := [("first_violation", Py.VBool true);
                ("unclear_zone", Py.VBool true);
                ("has_errors", Py.VBool true)] in
  let data2 := [("first_violation", Py.VStr "yes")] in
  (forall k, In k WebApp.COPIED_TRIGGERS ->
     Py.truthy (Py.get data1 k) = Py.truthy (Py.get data2 k))
  /\ WebApp.analyze_citation data1 = WebApp.analyze_citation data2
  /\ map WebApp.key (WebApp.suggested_angles (WebApp.analyze_citation data1))
     = ["first_time_leniency"].
Proof.
  intros data1 data2.
  assert (H : forall k, In k WebApp.COPIED_TRIGGERS ->
                Py.truthy (Py.get data1 k) = Py.truthy (Py.get data2 k)).
  { intros k Hk. simpl in Hk.
    repeat (destruct Hk as [<- | Hk]; [reflexivity |]). contradiction. }
  split; [exact H |].
  split; [exact (analyze_citation_reads_copied_triggers data1 data2 H) |].
  reflexivity.
Defined.

Lemma catalog_has_four_questions (angle_key : string) (angle : AppealAngle) :
  get_angle angle_key = Some angle -> length (key_questions angle) = 4.
Proof.
  intro H. apply lookup_in in H. simpl in H.
  repeat (destruct H as [H | H]; [inversion H; subst; reflexivity |]).
  contradiction.
Qed.

Lemma zone_rule_triggers (triggers : list string) :
  In ("zone_confusion", triggers) RULES ->
  triggers = ["unclear_zone"; "zone_boundary_unclear"].
Proof.
  intro H. simpl in H.
  repeat (destruct H as [H | H]; [inversion H; reflexivity |]).
  contradiction.
Qed.

(** X18: the analysis endpoint answers every JSON object with success
    and one entry per key the classifier suggests, in the same order and
    with none dropped; each entry carries the catalog name and the first
    three of the angle's four questions.  zone_confusion is never
    suggested, because the endpoint copies neither of its trigger facts. *)
Theorem analyze_citation_response (data : Py.Dict Py.value) :
  let response := WebApp.analyze_citation data in
  WebApp.success response = true
  /\ map WebApp.key (WebApp.suggested_angles response)
     = analyze_situation (WebApp.analyze_citation_details data)
  /\ 1 <= length (WebApp.suggested_angles response) <= 9
  /\ (forall detail, In detail (WebApp.suggested_angles response) ->
        exists angle,
          get_angle (WebApp.key detail) = Some angle
          /\ WebApp.name detail = name angle
          /\ WebApp.description detail = description angle
          /\ WebApp.questions detail = firstn 3 (key_questions angle)
          /\ length (WebApp.questions detail) = 3)
  /\ ~ In "zone_confusion" (map WebApp.key (WebApp.suggested_angles response)).
Proof.
  cbv zeta. unfold WebApp.analyze_citation. cbv zeta.
  cbn [WebApp.success WebApp.suggested_angles].
  set (facts := WebApp.analyze_citation_details data).
  destruct (analyze_situation_in_catalog_keys facts) as [Hcatalog Hlen].
  pose proof (analyze_situation_nonempty facts) as Hnonempty.
  assert (Hkeys :
    map WebApp.key
      (flat_map
         (fun angle_key =>
            match get_angle angle_key with
            | Some angle =>
                [{| WebApp.key := angle_key;
                    WebApp.name := name angle;
                    WebApp.description := description angle;
                    WebApp.questions := firstn 3 (key_questions angle) |}]
            | None => []
            end) (analyze_situation facts))
    = analyze_situation facts).
  { clear Hlen Hnonempty.
    induction (analyze_situation facts) as [| k keys IH]; [reflexivity |].
    cbn [flat_map]. destruct (get_angle k) as [angle |] eqn:Hangle.
    - cbn [app map WebApp.key]. f_equal. apply IH.
      intros k' Hk'. apply Hcatalog. right. exact Hk'.
    - exfalso. apply (Hcatalog k); [left; reflexivity | exact Hangle]. }
  split; [reflexivity |]. split; [exact Hkeys |]. split; [| split].
  - rewrite <- (length_map WebApp.key), Hkeys.
    destruct (analyze_situation facts); [contradiction | simpl in *; lia].
  - intros detail Hin. apply in_flat_map in Hin.
    destruct Hin as [k [_ Hin]].
    destruct (get_angle k) as [angle |] eqn:Hangle; [| contradiction].
    destruct Hin as [<- | []]. exists angle.
    cbn [WebApp.key WebApp.name WebApp.description WebApp.questions].
    repeat split; try assumption.
    rewrite length_firstn, (catalog_has_four_questions k angle Hangle).
    reflexivity.
  - rewrite Hkeys. rewrite analyze_situation_table.
    assert (Hzone : ~ In "zone_confusion" (satisfied_angles facts)).
    { intro Hin. apply satisfied_angles_in in Hin.
      destruct Hin as [triggers [Hrule Hsat]].
      rewrite (zone_rule_triggers triggers Hrule) in Hsat.
      unfold rule_satisfied, facts in Hsat. cbn [snd existsb] in Hsat.
      rewrite !analyze_citation_flags in Hsat by (simpl; tauto).
      discriminate Hsat. }
    destruct (satisfied_angles facts) eqn:E; [| exact Hzone].
    simpl. intuition discriminate.
Qed.



(** X20: every code [get_all_states] lists resolves through
    [get_state_info] to the record stored under that code, so reading a
    listed state's name never meets an absent record. *)
Theorem listed_states_resolve (state_code : string) :
  In state_code get_all_states ->
  exists record,
    get_state_info state_code = Some record
    /\ In (state_code, record) STATE_REGULATIONS.
Proof.
  intro H. unfold get_all_states in H. simpl in H.
  repeat (destruct H as [<- | H];
          [eexists; split; [reflexivity | simpl; tauto] |]).
  contradiction.
Qed.

Lemma listed_states_resolve_witness :
  In "TX" get_all_states
  /\ option_map State.name (get_state_info "TX") = Some "Texas".
Proof.
  assert (H : In "TX" get_all_states) by (simpl; tauto).
  split; [exact H |].
  destruct (listed_states_resolve "TX" H) as [record [Hlookup _]].
  rewrite Hlookup. inversion Hlookup. reflexivity.
Defined.

(** ** The generation endpoint *)

Import WebAppGenerate.

(** X21: the generation endpoint never raises and answers failures
    without calling the generator: status 400 when the API key is unset
    or empty; status 500 with the AttributeError text when the state
    member is missing, and also when it is a code that [get_state_info]
    does not resolve. *)
Theorem generate_appeal_failures
        (model : Model) (api_key : option string) (request : Request)
        (log : Log) :
  (exists response log',
      generate_appeal model api_key request log = (Py.Return response, log'))
  /\ ((api_key = None \/ api_key = Some "") ->
      generate_appeal model api_key request log
      = (Py.Return (Failed 400 "API key not configured"), log))
  /\ (forall key,
        api_key = Some key -> key <> "" ->
        Py.get (fields request) "state" = Py.VNone ->
        generate_appeal model api_key request log
        = (Py.Return
             (Failed 500 "'NoneType' object has no attribute 'upper'"), log))
  /\ (forall key state,
        api_key = Some key -> key <> "" ->
        Py.get (fields request) "state" = Py.VStr state ->
        get_state_info state = None ->
        generate_appeal model api_key request log
        = (Py.Return
             (Failed 500 "'NoneType' object has no attribute 'get'"), log)).
Proof.
  split; [| split; [| split]].
  - unfold generate_appeal, try_except.
    match goal with
    | |- context [match ?body log with _ => _ end] =>
        destruct (body log) as [[response | e] log']
    end; eexists; eexists; reflexivity.
  - intros [-> | ->]; reflexivity.
  - intros key -> Hkey Hstate. unfold generate_appeal, try_except.
    apply String.eqb_neq in Hkey. cbn [Py.truthy]. rewrite Hkey. cbn [negb].
    unfold generate_appeal_body. cbv zeta. rewrite Hstate. reflexivity.
  - intros key state -> Hkey Hstate Hunknown.
    unfold generate_appeal, try_except.
    apply String.eqb_neq in Hkey. cbn [Py.truthy]. rewrite Hkey. cbn [negb].
    unfold generate_appeal_body. cbv zeta. rewrite Hstate.
    cbn [state_code_of]. unfold bind at 1.
    unfold generate_comprehensive_appeal.
    rewrite comprehensive_prompt_without_state
      by (cbn [Info.state]; rewrite get_combined_info_state; exact Hunknown).
    reflexivity.
Qed.

Lemma generate_appeal_failures_witness :
  let model : Model := fun _ _ => Py.Return "Dear Hearing Officer" in
  let request := {| fields := [("citation_number", Py.VStr "SEA-1");
                               ("state", Py.VStr "WA");
                               ("city", Py.VStr "Seattle")];
                    selected_angles := [];
                    evidence_items := ["Photos"] |} in
  "configured-key" <> ""
  /\ Py.get (fields request) "state" = Py.VStr "WA"
  /\ get_state_info "WA" = None
  /\ generate_appeal model (Some "configured-key") request []
     = (Py.Return (Failed 500 "'NoneType' object has no attribute 'get'"), [])
  /\ generate_appeal model (Some "") request []
     = (Py.Return (Failed 400 "API key not configured"), []).
Proof.
  intros model request.
  destruct (generate_appeal_failures model (Some "configured-key") request [])
    as [_ [_ [_ Hunknown]]].
  destruct (generate_appeal_failures model (Some "") request [])
    as [_ [Hkey _]].
  assert (Hne : "configured-key" <> "") by discriminate.
  split; [exact Hne |]. split; [reflexivity |]. split; [reflexivity |].
  split.
  - exact (Hunknown "configured-key" "WA" eq_refl Hne eq_refl eq_refl).
  - apply Hkey. right. reflexivity.
Defined.

(** X22: when the state resolves and every generator call raises, the
    generation endpoint still answers with the success body: its appeal
    is the text [Error generating comprehensive appeal: ] followed by the
    exception's description, its analysis is absent, and the generator was
    called once for the appeal and, unless the request turns the analysis
    off, once more for the analysis. *)
Theorem generate_appeal_success_on_generator_failure
        (model : Model) (e : Py.exn) (key state : string)
        (state_info : State.t) (request : Request) (log : Log) :
  key <> "" ->
  Py.get (fields request) "state" = Py.VStr state ->
  get_state_info state = Some state_info ->
  (forall n prompt, model n prompt = Py.Raise e) ->
  exists angles_used log',
    generate_appeal model (Some key) request log
    = (Py.Return
         (Generated ("Error generating comprehensive appeal: " ++ Py.exn_str e)
                    Py.VNone angles_used),
       log')
    /\ length log'
       = length log
         + (if Py.truthy (WebApp.get_or (fields request) "include_analysis"
                                        (Py.VBool true))
            then 2 else 1).
Proof.
  intros Hkey Hstate Hknown Hfail.
  unfold generate_appeal, try_except.
  apply String.eqb_neq in Hkey. cbn [Py.truthy]. rewrite Hkey. cbn [negb].
  unfold generate_appeal_body. cbv zeta. rewrite Hstate. cbn [state_code_of].
  set (citation_details := generate_citation_details (fields request)).
  set (location_info :=
         get_combined_info (city_name_of (Py.get (fields request) "city")) state).
  set (chosen := match selected_angles request with
                 | [] => analyze_situation citation_details
                 | _ :: _ => selected_angles request
                 end).
  set (passed_on := {| Info.state := Info.state location_info;
                       Info.city := Info.city location_info;
                       Info.available_grounds := [] |}).
  assert (Hinfo : Info.state passed_on = Some state_info).
  { unfold passed_on, location_info. cbn [Info.state].
    rewrite get_combined_info_state. exact Hknown. }
  destruct (comprehensive_prompt_with_state citation_details
              (build_evidence request) passed_on chosen state_info Hinfo)
    as [prompt Hprompt].
  unfold bind at 1. unfold generate_comprehensive_appeal. rewrite Hprompt.
  unfold try_except, generate_content. rewrite Hfail. unfold ret at 1.
  destruct (Py.truthy (WebApp.get_or (fields request) "include_analysis"
                                     (Py.VBool true))).
  - unfold bind at 1. unfold bind at 1.
    rewrite analyze_citation_strength_run. rewrite Hfail.
    unfold ret, bind. cbn [Py.get Py.lookup Py.truthy].
    eexists. eexists. split; [reflexivity |].
    rewrite !length_app. simpl. lia.
  - unfold bind, ret.
    eexists. eexists. split; [reflexivity |].
    rewrite !length_app. simpl. lia.
Qed.

Lemma generate_appeal_success_on_generator_failure_witness :
  let e := Py.Exception "ResourceExhausted" "429 quota exceeded" in
  let model : Model := fun _ _ => Py.Raise e in
  let request := {| fields := [("citation_number", Py.VStr "SF-20417");
                               ("state", Py.VStr "ca");
                               ("first_violation", Py.VBool true)];
                    selected_angles := [];
                    evidence_items := [] |} in
  "configured-key" <> ""
  /\ Py.get (fields request) "state" = Py.VStr "ca"
  /\ (exists state_info, get_state_info "ca" = Some state_info)
  /\ (forall n prompt, model n prompt = Py.Raise e)
  /\ (exists angles_used,
        fst (generate_appeal model (Some "configured-key") request [])
        = Py.Return
            (Generated "Error generating comprehensive appeal: 429 quota exceeded"
                       Py.VNone angles_used)).
Proof.
  intros e model request.
  assert (Hne : "configured-key" <> "") by discriminate.
  destruct (get_state_info "ca") as [state_info |] eqn:Hknown; [| discriminate].
  assert (Hfail : forall n prompt, model n prompt = Py.Raise e)
    by (intros; reflexivity).
  destruct (generate_appeal_success_on_generator_failure
              model e "configured-key" "ca" state_info request []
              Hne eq_refl Hknown Hfail)
    as [angles_used [log' [Hrun _]]].
  split; [exact Hne |]. split; [reflexivity |].
  split; [exists state_info; reflexivity |]. split; [exact Hfail |].
  exists angles_used. rewrite Hrun. reflexivity.
Defined.

(** ** Reading answers *)

Import QuestionnaireIO.





Lemma get_input_loop_returns (prompt : string) (required : bool)
      (default : Py.value) (lines : list string) :
  forall written text console',
    get_input_loop prompt required default lines written
    = (Py.Return text, console') ->
    (text <> "" /\ PyText.strip text = text
     /\ exists line, In line lines /\ text = PyText.strip line)
    \/ (default <> Py.VNone /\ text = Py.str default)
    \/ (default = Py.VNone /\ required = false /\ text = "").
Proof.
  induction lines as [| line lines IH]; intros written text console' Hrun.
  - discriminate Hrun.
  - cbn [get_input_loop] in Hrun. cbv zeta in Hrun.
    destruct (Py.truthy (Py.VStr (PyText.strip line))) eqn:Htruthy.
    + inversion Hrun. subst. left. split; [| split].
      * simpl in Htruthy. apply negb_true_iff, String.eqb_neq in Htruthy.
        exact Htruthy.
      * apply strip_idempotent.
      * exists line. split; [left |]; reflexivity.
    + destruct default as [| b | z | s];
        try (inversion Hrun; subst; right; left;
             split; [discriminate | reflexivity]).
      destruct required; cbn [negb] in Hrun.
      * destruct (IH _ _ _ Hrun) as [[Hne [Hstrip [l [Hl Htext]]]] | H].
        -- left. split; [exact Hne |]. split; [exact Hstrip |].
           exists l. split; [right; exact Hl | exact Htext].
        -- right. exact H.
      * inversion Hrun. right. right. repeat split.
Qed.

(** X24: whatever [get_input] returns is the stripped text of a line
    read, not empty and without surrounding whitespace, or the default
    rendered as text, or, only for a field that is not required and has no
    default, the empty text.  So a required field without default never
    comes back empty. *)
Theorem get_input_result (prompt : string) (required : bool)
        (default : Py.value) (console : Console) (text : string)
        (console' : Console) :
  get_input prompt required default console = (Py.Return text, console') ->
  ((text <> "" /\ PyText.strip text = text
    /\ exists line, In line (stdin console) /\ text = PyText.strip line)
   \/ (default <> Py.VNone /\ text = Py.str default)
   \/ (default = Py.VNone /\ required = false /\ text = ""))
  /\ (required = true -> default = Py.VNone ->
      text <> "" /\ PyText.strip text = text).
Proof.
  intro Hrun. unfold get_input in Hrun.
  pose proof (get_input_loop_returns _ _ _ _ _ _ _ Hrun) as H.
  split; [exact H |].
  intros Hrequired Hdefault.
  destruct H as [[Hne [Hstrip _]] | [[Hdef _] | [_ [Hreq _]]]].
  - tauto.
  - contradiction.
  - congruence.
Qed.

Lemma get_input_result_witness :
  let console := {| stdin := ["   "; ""; "  SF-20417 "; "next"]; stdout := [] |} in
  exists console',
    get_input "Citation Number" true Py.VNone console
    = (Py.Return "SF-20417", console')
    /\ stdin console' = ["next"]
    /\ "SF-20417" <> "" /\ PyText.strip "SF-20417" = "SF-20417".
Proof.
  intro console. eexists. split; [reflexivity |]. split; [reflexivity |].
  exact (proj2 (get_input_result "Citation Number" true Py.VNone console
                  "SF-20417" _ eq_refl) eq_refl eq_refl).
Defined.
